(** * Verification of the Vercel-to-Telegram webhook relay

    Shallow embedding of
    - [escapeMarkdown], [formatVercelMessageForTelegram] and
      [sendTelegramMessage] (src/unnamed/part_001);
    - the three revisions of the webhook [handler] kept in
      src/api/vercel-notifications-to-telegram.ts (lines 28-103, 135-243 and
      274-379), which share the prologue and the tail after verification and
      differ in how the signature is checked;
    - the early [handler] of src/unnamed/part_000, which relies on the
      framework's JSON body parser.

    JavaScript strings are modelled as Rocq [string]s holding their UTF-8
    bytes; every character the code inspects (the MarkdownV2 reserved set,
    backslash, newline) is ASCII, so per-byte and per-code-unit processing
    agree.  HTTP header values are latin1 strings in Node, so a header is a
    [string] of 8-bit characters and [Buffer.from(s, "utf-8")] encodes those
    of code 128 and above as two bytes.

    Every observable step is an event of the run's trace: reading the body,
    the host's and the handler's [JSON.parse], the HMAC and
    [timingSafeEqual], the dispatch, the [fetch], and each [console.log],
    [console.warn] and [console.error] call with its arguments. *)

From Stdlib Require Import String Ascii List ZArith Bool Lia.
Import ListNotations.
Local Open Scope string_scope.
Local Open Scope Z_scope.

Definition bytes := list Byte.byte.

(** ** JavaScript helpers *)

(** A string-typed JavaScript value that may also be [null] or
    [undefined], the parameter type of [escapeMarkdown]. *)
Inductive js_string :=
| JSUndefined
| JSNull
| JSString (s : string).

(** [x?.field] on an optional string: absent means [undefined]. *)
Definition js_opt (o : option string) : js_string :=
  match o with Some s => JSString s | None => JSUndefined end.

(** Truthiness of an optional string: [undefined] and [""] are falsy. *)
Definition truthy (o : option string) : option string :=
  match o with
  | Some s => if String.eqb s "" then None else Some s
  | None => None
  end.

(** [a || b] where [b] is a string. *)
Definition js_or (a : option string) (b : string) : string :=
  match truthy a with Some s => s | None => b end.

(** [a || b] where both sides are optional strings. *)
Definition js_or_opt (a b : option string) : option string :=
  match truthy a with Some s => Some s | None => b end.

(** ** escapeMarkdown (part_001, lines 350-359) *)

(** Membership in the character class [/[_*[\]()~`>#+\-=|{}.!]/]. *)
Definition is_reserved (c : ascii) : bool :=
  existsb (Ascii.eqb c)
    ["_"; "*"; "["; "]"; "("; ")"; "~"; "`"; ">"; "#"; "+"; "-"; "=";
     "|"; "{"; "}"; "."; "!"]%char.

Definition backslash : ascii := "\"%char.

(** [text.replace(/[...]/g, "\\$&")]: every reserved character is
    replaced by a backslash followed by itself. *)
Fixpoint escape_replace (text : string) : string :=
  match text with
  | EmptyString => EmptyString
  | String c rest =>
      if is_reserved c then String backslash (String c (escape_replace rest))
      else String c (escape_replace rest)
  end.

(** Whether a string holds a reserved character. *)
Fixpoint has_reserved (s : string) : bool :=
  match s with
  | EmptyString => false
  | String c rest => is_reserved c || has_reserved rest
  end.

Definition escapeMarkdown (text : js_string) : string :=
  match text with
  | JSUndefined | JSNull => ""
  | JSString t => escape_replace t
  end.

(** ** The webhook event (part_001, lines 1-57) *)

Inductive deployment_target := Production | Staging.

Record Meta := {
  githubCommitAuthorName : option string;
  githubCommitMessage : option string;
  githubCommitRef : option string;
  githubCommitSha : option string
}.

Record Deployment := {
  d_id : string;
  d_name : string;
  d_url : string;
  d_state : option string;
  (** [target?: "production" | "staging" | null]; [None] is both
      [undefined] and [null]. *)
  d_target : option deployment_target;
  d_alias : option (list string);
  d_meta : option Meta;
  d_inspectorUrl : option string;
  d_errorMessage : option string
}.

Record Project := { p_id : string; p_name : string }.

Record ErrorInfo := { e_code : option string; e_message : option string }.

Record Attack := {
  a_type : string;
  a_description : string;
  a_source : option string;
  a_target : string;
  a_mitigation : option string;
  a_inspectorUrl : option string
}.

Record Payload := {
  deployment : option Deployment;
  project : option Project;
  error : option ErrorInfo;
  attack : option Attack;
  promotedAlias : option (list string);
  previousAliases : option (list string)
}.

Record VercelWebhook := {
  w_id : string;
  w_type : string;
  createdAt : Z;
  userId : string;
  teamId : option string;
  payload : Payload
}.

(** ** The incoming request *)

Record Request := {
  method : string;
  (** [req.headers["x-vercel-signature"]] *)
  x_vercel_signature : option string;
  (** [req.headers["content-type"]], as its media type (lower case,
      without parameters) *)
  content_type : option string;
  (** the body stream: its bytes, or [None] when it emits ['error'] *)
  raw_body : option bytes;
  (** the error the body stream emits when [raw_body] is [None] *)
  body_error : string
}.

(** ** Console output *)

(** A JSON value, for the fields the code declares as [any] (numbers are
    kept to integers). *)
#[warnings="-register-all"]
Inductive json :=
| JNull
| JBool (b : bool)
| JNumber (n : Z)
| JStr (s : string)
| JArray (l : list json)
| JObject (l : list (string * json)).

(** One argument of a [console.log], [console.warn] or [console.error]
    call, as the code passes it; the host renders the arguments. *)
Inductive console_arg :=
| CStr (s : string)                     (** a string *)
| CStringifyHeaders (req : Request)     (** [JSON.stringify(req.headers, null, 2)] *)
| CStringifyWebhook (w : VercelWebhook) (** [JSON.stringify(webhookPayload, null, 2)] *)
| CStringifyPayload (p : Payload)       (** [JSON.stringify(payload, null, 2)] *)
| CError (e : string)                   (** a caught error value *)
| CValue (v : option json).             (** a value of type [any]; [None] is [undefined] *)

(** [console.log] writes to stdout; [console.warn] and [console.error] to
    stderr. *)
Inductive console_level := LevelLog | LevelWarn | LevelError.

(** [String(n)] for a number without sign: its decimal digits. *)
Fixpoint decimal_aux (fuel : nat) (n : N) (acc : string) : string :=
  match fuel with
  | O => acc
  | S f =>
      let acc := String (ascii_of_N (48 + n mod 10)) acc in
      if (n <? 10)%N then acc else decimal_aux f (n / 10)%N acc
  end.

Definition decimal_N (n : N) : string := decimal_aux (S (N.size_nat n)) n EmptyString.

Definition decimal_nat (n : nat) : string := decimal_N (N.of_nat n).

Definition decimal_Z (z : Z) : string :=
  if z <? 0 then "-" ++ decimal_N (Z.to_N (- z)) else decimal_N (Z.to_N z).

(** [${x}] for an optional string: absent renders as [undefined]. *)
Definition template_opt (o : option string) : string :=
  match o with Some s => s | None => "undefined" end.

(** ** formatVercelMessageForTelegram (part_001, lines 181-339) *)

(** [Array.prototype.push] on the local [messageLines] array. *)
Definition push (lines : list string) (line : string) : list string :=
  app lines [line].

Definition titlePrefix : string := "🔔 *Vercel Notification*".

Definition code_span (s : string) : string := "`" ++ s ++ "`".

Definition bind_opt {A B} (o : option A) (f : A -> option B) : option B :=
  match o with Some a => f a | None => None end.

Section Format.

(** [new Date(ms).toLocaleString()]: rendering of a timestamp by the host's
    locale and time zone. *)
Variable toLocaleString : Z -> string.

(** The arrow function [addCommonDetails] of lines 193-210, closed over
    [projectName], [deploymentUrl], [inspectorUrl] and [createdAt]. *)
Definition addCommonDetails (projectName : string)
    (deploymentUrl inspectorUrl : option string) (createdAt : Z)
    (lines : list string) (customTitle : option string) : list string :=
  let lines := push lines (js_or customTitle titlePrefix) in
  let lines := push lines ("*Project:* " ++ projectName) in
  let lines :=
    match truthy deploymentUrl with
    | Some u =>
        push lines ("*Deployment URL:* [" ++ escapeMarkdown (JSString u) ++
                    "](" ++ escapeMarkdown (JSString u) ++ ")")
    | None => lines
    end in
  let lines :=
    match truthy inspectorUrl with
    | Some u =>
        push lines ("*Details:* [View on Vercel](" ++
                    escapeMarkdown (JSString u) ++ ")")
    | None => lines
    end in
  let date := toLocaleString createdAt in
  push lines ("*Time:* " ++ code_span (escapeMarkdown (JSString date))).

(** [alias.map((a) => `\`${escapeMarkdown(a)}\``).join(", ")] *)
Definition render_aliases (alias : list string) : string :=
  String.concat ", " (map (fun a => code_span (escapeMarkdown (JSString a))) alias).

(** The message lines and the [console.log] calls made, each with its
    arguments. *)
Definition format_message_lines (webhook : VercelWebhook)
    : list string * list (list console_arg) :=
  let type := w_type webhook in
  let payload := payload webhook in
  let createdAt := createdAt webhook in
  let dep := deployment payload in
  let projectName :=
    escapeMarkdown (JSString
      (js_or (js_or_opt (option_map d_name dep)
                        (option_map p_name (project payload))) "N/A")) in
  let deploymentUrl := option_map d_url dep in
  let inspectorUrl :=
    js_or_opt (bind_opt dep d_inspectorUrl)
              (bind_opt (attack payload) a_inspectorUrl) in
  let common := addCommonDetails projectName deploymentUrl inspectorUrl createdAt in
  let commitRef := bind_opt (bind_opt dep d_meta) githubCommitRef in
  let alias_line (label : string) (lines : list string) :=
    match bind_opt dep d_alias with
    | Some (a :: rest) => push lines (label ++ render_aliases (a :: rest))
    | _ => lines
    end in
  let time_line :=
    "*Time:* " ++ code_span (escapeMarkdown (JSString (toLocaleString createdAt))) in
  if String.eqb type "deployment.created" then
    let lines := common [] (Some "🚀 *Deployment Created*") in
    let lines :=
      match truthy commitRef with
      | Some r => push lines ("*Branch:* " ++ code_span (escapeMarkdown (JSString r)))
      | None => lines
      end in
    let lines :=
      match truthy (bind_opt (bind_opt dep d_meta) githubCommitAuthorName) with
      | Some a => push lines ("*Author:* " ++ code_span (escapeMarkdown (JSString a)))
      | None => lines
      end in
    (lines, [])
  else if String.eqb type "deployment.succeeded" then
    let lines := common [] (Some "✅ *Deployment Succeeded*") in
    let lines :=
      match bind_opt dep d_target with
      | Some Production => push lines "🎯 *Target:* `PRODUCTION`"
      | _ => lines
      end in
    let lines := alias_line "*Domains:* " lines in
    let lines :=
      match truthy commitRef with
      | Some r => push lines ("*Branch:* " ++ code_span (escapeMarkdown (JSString r)))
      | None => lines
      end in
    (lines, [])
  else if String.eqb type "deployment.error" then
    let lines := common [] (Some "❌ *Deployment Error*") in
    let errorMessage :=
      escapeMarkdown (JSString
        (js_or (js_or_opt (bind_opt (error payload) e_message)
                          (bind_opt dep d_errorMessage))
               "No specific error message provided.")) in
    let errorCode := escapeMarkdown (js_opt (bind_opt (error payload) e_code)) in
    let lines := push lines ("*Error:* " ++ errorMessage) in
    let lines :=
      match truthy (Some errorCode) with
      | Some c => push lines ("*Code:* " ++ code_span c)
      | None => lines
      end in
    (lines, [])
  else if String.eqb type "deployment.canceled" then
    (common [] (Some "🚫 *Deployment Canceled*"), [])
  else if String.eqb type "deployment.promoted" then
    let lines := common [] (Some "🌟 *Deployment Promoted to Production*") in
    (alias_line "*Production Domains:* " lines, [])
  else if String.eqb type "project.created" then
    let lines := push [] "🎉 *Project Created*" in
    let lines := push lines ("*Project Name:* " ++ projectName) in
    (push lines time_line, [])
  else if String.eqb type "project.removed" then
    let lines := push [] "🗑️ *Project Removed*" in
    let lines := push lines ("*Project Name:* " ++ projectName) in
    (push lines time_line, [])
  else if String.eqb type "attack.detected" then
    let atk := attack payload in
    let lines := push [] "🛡️ *Security Attack Detected*" in
    let lines :=
      push lines ("*Project/Target:* " ++
                  escapeMarkdown (JSString (js_or (option_map a_target atk) projectName))) in
    let lines :=
      push lines ("*Attack Type:* " ++ code_span (escapeMarkdown (js_opt (option_map a_type atk)))) in
    let lines :=
      push lines ("*Description:* " ++ escapeMarkdown (js_opt (option_map a_description atk))) in
    let lines :=
      match truthy (bind_opt atk a_source) with
      | Some s => push lines ("*Source:* " ++ code_span (escapeMarkdown (JSString s)))
      | None => lines
      end in
    (push lines time_line, [])
  else
    let lines := common [] (Some "ℹ️ *Vercel Notification*") in
    let lines := push lines ("*Event Type:* " ++ code_span (escapeMarkdown (JSString type))) in
    let lines :=
      push lines "_Raw payload logged for unhandled event type. Please check server logs._" in
    (lines, [[CStr "Unhandled Vercel event type:"; CStr type; CStringifyPayload payload]]).

(** The formatted text ([messageLines.join("\n")]) together with the
    [console.log] calls the call made. *)
Definition formatVercelMessageForTelegram (webhook : VercelWebhook)
    : string * list (list console_arg) :=
  let (lines, logs) := format_message_lines webhook in
  (String.concat (String "010"%char EmptyString) lines, logs).

End Format.

(** ** Effects: a writer monad over observable events, with exceptions *)

Inductive parse_mode := MarkdownV2 | HTML.

Record SendMessagePayload := {
  chat_id : string;
  text : string;
  parse_mode_field : option parse_mode
}.

Record fetch_request := { fetch_url : string; fetch_body : SendMessagePayload }.

(** A [TelegramResponse] body, at its declared type (part_001, lines
    85-90). *)
Record TelegramResponse := {
  ok : bool;
  (** [result?: any] *)
  result : option json;
  description : option string;
  error_code : option Z
}.

(** What the remote side does with one [fetch]: a network-layer failure
    (the promise rejects with the given error), or an HTTP response with its
    status, its status text and what [response.json()] gives for its body:
    the parsed value, or the message of the [SyntaxError] it rejects with. *)
Inductive fetch_result :=
| NetworkError (err : string)
| HttpResponse (status : Z) (statusText : string) (json_body : TelegramResponse + string).

(** The observable events of a run. *)
Inductive event :=
| EvReadBody                          (** the raw body stream is consumed *)
| EvFrameworkJsonParse (data : bytes) (** the host parses [req.body] *)
| EvHmacSha1 (key : string) (data : bytes)
| EvTimingSafeEqual (a b : bytes)
| EvJsonParse (data : bytes)          (** [JSON.parse] in the handler *)
| EvSendTelegramMessage (chat : string) (msg : string) (mode : option parse_mode)
| EvFetch (req : fetch_request)
| EvConsole (level : console_level) (args : list console_arg).

Inductive res (A : Type) :=
| Ok (a : A)
| Throw (exn : string).
Arguments Ok {A} a.
Arguments Throw {A} exn.

Definition M (A : Type) : Type := res A * list event.

Definition ret {A} (a : A) : M A := (Ok a, []).

Definition bind {A B} (m : M A) (k : A -> M B) : M B :=
  match m with
  | (Ok a, t1) => let (r, t2) := k a in (r, app t1 t2)
  | (Throw e, t1) => (Throw e, t1)
  end.

Notation "x <- m ;; k" := (bind m (fun x => k))
  (at level 61, m at next level, right associativity).
Notation "m ;; k" := (bind m (fun _ => k))
  (at level 61, right associativity).

Definition emit (e : event) : M unit := (Ok tt, [e]).

Definition throw {A} (e : string) : M A := (Throw e, []).

(** [try { m } catch (e) { h(e) }] *)
Definition try_catch {A} (m : M A) (h : string -> M A) : M A :=
  match m with
  | (Ok a, t) => (Ok a, t)
  | (Throw e, t1) => let (r, t2) := h e in (r, app t1 t2)
  end.

(** [console.log(...)], [console.warn(...)], [console.error(...)] *)
Definition console (level : console_level) (args : list console_arg) : M unit :=
  emit (EvConsole level args).

(** Consecutive [console.log] calls. *)
Fixpoint emit_all (calls : list (list console_arg)) : M unit :=
  match calls with
  | [] => ret tt
  | args :: rest => console LevelLog args ;; emit_all rest
  end.

(** ** sendTelegramMessage (part_001, lines 99-172) *)

(** [response.ok]: status in the range 200-299. *)
Definition response_ok (status : Z) : bool := (200 <=? status) && (status <=? 299).

Definition fetch_io (fetch : fetch_request -> fetch_result) (r : fetch_request)
    : M (Z * string * (TelegramResponse + string)) :=
  emit (EvFetch r) ;;
  match fetch r with
  | NetworkError err => throw err
  | HttpResponse status statusText body => ret (status, statusText, body)
  end.

(** [await response.json()] *)
Definition response_json (body : TelegramResponse + string) : M TelegramResponse :=
  match body with
  | inl r => ret r
  | inr syntaxError => throw syntaxError
  end.

(** [BOT_TOKEN] is [process.env.TELEGRAM_BOT_TOKEN], read at module load;
    [fetch] is the remote behaviour. *)
Definition sendTelegramMessage (BOT_TOKEN : option string)
    (fetch : fetch_request -> fetch_result)
    (chatId messageText : string) (parseMode : option parse_mode) : M bool :=
  emit (EvSendTelegramMessage chatId messageText parseMode) ;;
  match truthy BOT_TOKEN with
  | None =>
      console LevelError [CStr "Error: TELEGRAM_BOT_TOKEN environment variable not set."] ;;
      ret false
  | Some token =>
      let sendUrl := "https://api.telegram.org/bot" ++ token ++ "/sendMessage" in
      let payload := {| chat_id := chatId; text := messageText;
                        parse_mode_field := None |} in
      let payload :=
        match parseMode with
        | Some m => {| chat_id := chatId; text := messageText;
                       parse_mode_field := Some m |}
        | None => payload
        end in
      try_catch
        (response <- fetch_io fetch {| fetch_url := sendUrl; fetch_body := payload |} ;;
         let '(status, statusText, body) := response in
         if negb (response_ok status) then
           errorData <- try_catch (d <- response_json body ;; ret (Some d))
                                  (fun _ => ret None) ;;
           match errorData with
           | None =>
               console LevelError
                 [CStr ("Telegram API Error for chat_id " ++ chatId ++ ": HTTP " ++
                        decimal_Z status ++ " - " ++ statusText ++
                        ". Failed to parse error response body.")] ;;
               ret false
           | Some d =>
               console LevelError
                 [CStr ("Telegram API Error for chat_id " ++ chatId ++ ": HTTP " ++
                        decimal_Z status ++ " - " ++ js_or (description d) statusText)] ;;
               ret false
           end
         else
           responseData <- response_json body ;;
           if ok responseData then
             console LevelLog
               [CStr ("Message sent successfully to chat_id " ++ chatId ++ ":");
                CValue (result responseData)] ;;
             ret true
           else
             console LevelError
               [CStr ("Telegram API reported not OK for chat_id " ++ chatId ++ ": " ++
                      template_opt (description responseData))] ;;
             ret false)
        (fun error =>
           console LevelError
             [CStr ("Network or fetch error sending Telegram message to chat_id " ++
                    chatId ++ ":"); CError error] ;;
           ret false)
  end.

(** ** Node primitives used by the handler *)

Definition to_byte (n : N) : Byte.byte :=
  match Byte.of_N n with Some b => b | None => Byte.x00 end.

(** UTF-8 encoding of one latin1 character. *)
Definition utf8_of_char (c : ascii) : bytes :=
  let n := N_of_ascii c in
  if (n <? 128)%N then [to_byte n]
  else [to_byte (192 + n / 64)%N; to_byte (128 + n mod 64)%N].

(** [Buffer.from(s)] and [Buffer.from(s, "utf-8")]. *)
Fixpoint buffer_from (s : string) : bytes :=
  match s with
  | EmptyString => []
  | String c rest => app (utf8_of_char c) (buffer_from rest)
  end.

Definition bytes_eqb (a b : bytes) : bool :=
  if list_eq_dec Byte.byte_eq_dec a b then true else false.

(** [crypto.timingSafeEqual(a, b)]: throws a [RangeError] when the byte
    lengths differ. *)
Definition timingSafeEqual (a b : bytes) : M bool :=
  emit (EvTimingSafeEqual a b) ;;
  if Nat.eqb (List.length a) (List.length b) then ret (bytes_eqb a b)
  else throw "RangeError: Input buffers must have the same byte length".

(** ** The environment *)

Record Env := {
  VERCEL_WEBHOOK_SECRET : option string;
  TELEGRAM_TARGET_CHAT_ID : option string;
  TELEGRAM_BOT_TOKEN : option string;
  (** [createHmac("sha1", key).update(data).digest("hex")] *)
  hmac_sha1_hex : string -> bytes -> string;
  (** [JSON.parse(data.toString("utf-8")) as VercelWebhook]; [None] when
      [JSON.parse] throws *)
  json_parse : bytes -> option VercelWebhook;
  (** the [SyntaxError] [JSON.parse] throws on [data] *)
  json_error : bytes -> string;
  (** [new Date(ms).toLocaleString()] on this host *)
  to_locale_string : Z -> string;
  (** the remote messaging API *)
  remote : fetch_request -> fetch_result
}.

Inductive outcome :=
| Respond (status : Z) (allow : option string) (body : string)
(** the handler's promise rejects with an uncaught exception *)
| Unhandled (exn : string).

Definition reply (status : Z) (body : string) : M outcome :=
  ret (Respond status None body).

(** Running a handler: its outcome and its events in order. *)
Definition serve (m : M outcome) : outcome * list event :=
  match m with
  | (Ok o, t) => (o, t)
  | (Throw e, t) => (Unhandled e, t)
  end.

(** [getRawBody] (lines 16-23) *)
Definition getRawBody (req : Request) : M bytes :=
  emit EvReadBody ;;
  match raw_body req with
  | Some b => ret b
  | None => throw (body_error req)
  end.

Definition createHmac_sha1_hex (env : Env) (key : string) (data : bytes) : M string :=
  emit (EvHmacSha1 key data) ;; ret (hmac_sha1_hex env key data).

(** ** Signature verification, per revision of the handler

    Each returns [None] when the handler goes on, or the early response. *)

Inductive revision := Rev1 | Rev2 | Rev3.

(** Revision 1, lines 54-66: prefixed expected value, no length check. *)
Definition verify_rev1 (env : Env) (secret signatureHeader : string)
    (rawBody : bytes) : M (option outcome) :=
  digest <- createHmac_sha1_hex env secret rawBody ;;
  let expectedSignature := "sha1=" ++ digest in
  eq <- timingSafeEqual (buffer_from signatureHeader) (buffer_from expectedSignature) ;;
  if negb eq then
    console LevelWarn [CStr "Invalid signature."] ;;
    ret (Some (Respond 401 None "Invalid signature."))
  else ret None.

(** [calculateSha1Hash] (lines 130-132) *)
Definition calculateSha1Hash (env : Env) (data : bytes) (secret : string) : M string :=
  createHmac_sha1_hex env secret data.

(** The [console.log] calls of lines 168-185. *)
Definition rev2_debug_logs (receivedSignatureHeader expectedHash : string)
    : list (list console_arg) :=
  [[CStr ("Received x-vercel-signature header: '" ++ receivedSignatureHeader ++
          "' (Length: " ++ decimal_nat (String.length receivedSignatureHeader) ++ ")")];
   [CStr ("Calculated expected hash: '" ++ expectedHash ++
          "' (Length: " ++ decimal_nat (String.length expectedHash) ++ ")")];
   [CStr ("Received Signature Buffer Byte Length: " ++
          decimal_nat (List.length (buffer_from receivedSignatureHeader)))];
   [CStr ("Expected Hash Buffer Byte Length: " ++
          decimal_nat (List.length (buffer_from expectedHash)))]].

(** Revision 2, lines 165-203: bare digest, length checked first. *)
Definition verify_rev2 (env : Env) (secret receivedSignatureHeader : string)
    (rawBodyBuffer : bytes) : M (option outcome) :=
  expectedHash <- calculateSha1Hash env rawBodyBuffer secret ;;
  emit_all (rev2_debug_logs receivedSignatureHeader expectedHash) ;;
  let receivedSignatureBuffer := buffer_from receivedSignatureHeader in
  let expectedHashBuffer := buffer_from expectedHash in
  if negb (Nat.eqb (List.length receivedSignatureBuffer) (List.length expectedHashBuffer))
  then
    console LevelError
      [CStr ("Signature and expected hash buffers have different byte lengths. " ++
             "Received: " ++ decimal_nat (List.length receivedSignatureBuffer) ++
             ", Expected: " ++ decimal_nat (List.length expectedHashBuffer) ++ ". " ++
             "This could mean the 'x-vercel-signature' header unexpectedly contained 'sha1=' or was malformed.")] ;;
    ret (Some (Respond 401 None "Invalid signature due to length mismatch."))
  else
    eq <- timingSafeEqual receivedSignatureBuffer expectedHashBuffer ;;
    if negb eq then
      console LevelWarn [CStr "Invalid signature (timingSafeEqual failed)."] ;;
      ret (Some (Respond 401 None "Invalid signature."))
    else
      console LevelLog [CStr "Signature validation passed."] ;;
      ret None.

(** The [console.log] calls of lines 305-320. *)
Definition rev3_debug_logs (signatureHeader expectedSignature : string)
    : list (list console_arg) :=
  [[CStr ("Received x-vercel-signature header: '" ++ signatureHeader ++
          "' (Length: " ++ decimal_nat (String.length signatureHeader) ++ ")")];
   [CStr ("Calculated expected signature: '" ++ expectedSignature ++
          "' (Length: " ++ decimal_nat (String.length expectedSignature) ++ ")")];
   [CStr ("Signature Header Buffer Length: " ++
          decimal_nat (List.length (buffer_from signatureHeader)))];
   [CStr ("Expected Signature Buffer Length: " ++
          decimal_nat (List.length (buffer_from expectedSignature)))]].

(** Revision 3, lines 300-341: prefixed expected value, length checked
    first. *)
Definition verify_rev3 (env : Env) (secret signatureHeader : string)
    (rawBody : bytes) : M (option outcome) :=
  digest <- createHmac_sha1_hex env secret rawBody ;;
  let expectedSignature := "sha1=" ++ digest in
  emit_all (rev3_debug_logs signatureHeader expectedSignature) ;;
  let signatureHeaderBuffer := buffer_from signatureHeader in
  let expectedSignatureBuffer := buffer_from expectedSignature in
  if negb (Nat.eqb (List.length signatureHeaderBuffer) (List.length expectedSignatureBuffer))
  then
    console LevelError
      [CStr "Signature buffers have different byte lengths. Cannot use timingSafeEqual."] ;;
    ret (Some (Respond 401 None "Invalid signature due to length mismatch."))
  else
    eq <- timingSafeEqual signatureHeaderBuffer expectedSignatureBuffer ;;
    if negb eq then
      console LevelWarn [CStr "Invalid signature (timingSafeEqual failed)."] ;;
      ret (Some (Respond 401 None "Invalid signature."))
    else ret None.

Definition verify_signature (rev : revision) : Env -> string -> string -> bytes -> M (option outcome) :=
  match rev with
  | Rev1 => verify_rev1
  | Rev2 => verify_rev2
  | Rev3 => verify_rev3
  end.

(** The header value each revision accepts for a body and a secret. *)
Definition expected_signature (rev : revision) (env : Env) (secret : string) (body : bytes) : string :=
  match rev with
  | Rev2 => hmac_sha1_hex env secret body
  | Rev1 | Rev3 => "sha1=" ++ hmac_sha1_hex env secret body
  end.

(** ** The handler

    The part after verification (lines 68-102, 205-242 and 343-378) has the
    same steps in all three revisions; revision 2 writes other console
    lines. *)

(** The label of the [console.error] of a failed [JSON.parse]. *)
Definition json_error_label (rev : revision) : string :=
  match rev with
  | Rev2 => "Error parsing JSON payload after signature verification:"
  | Rev1 | Rev3 => "Error parsing JSON payload:"
  end.

(** The [console.log] call after a successful [JSON.parse]. *)
Definition parsed_log (rev : revision) (webhookPayload : VercelWebhook) : list console_arg :=
  match rev with
  | Rev2 => [CStr "Webhook payload parsed successfully."]
  | Rev1 | Rev3 => [CStr "Received valid Vercel webhook:"; CStringifyWebhook webhookPayload]
  end.

Definition process_verified (rev : revision) (env : Env) (rawBody : bytes) : M outcome :=
  parsed <- try_catch
              (emit (EvJsonParse rawBody) ;;
               match json_parse env rawBody with
               | Some w => ret (inl w)
               | None => throw (json_error env rawBody)
               end)
              (fun error => ret (inr error)) ;;
  match parsed with
  | inr error =>
      console LevelError [CStr (json_error_label rev); CError error] ;;
      reply 400 "Invalid JSON payload."
  | inl webhookPayload =>
      console LevelLog (parsed_log rev webhookPayload) ;;
      match truthy (TELEGRAM_TARGET_CHAT_ID env) with
      | None =>
          console LevelError [CStr "TELEGRAM_TARGET_CHAT_ID environment variable not set."] ;;
          reply 200 "Webhook received, but Telegram chat ID not configured."
      | Some TARGET_CHAT_ID =>
          let (telegramMessage, logs) :=
            formatVercelMessageForTelegram (to_locale_string env) webhookPayload in
          emit_all logs ;;
          success <- sendTelegramMessage (TELEGRAM_BOT_TOKEN env) (remote env)
                       TARGET_CHAT_ID telegramMessage (Some MarkdownV2) ;;
          if success then reply 200 "Notification sent to Telegram."
          else reply 500 "Failed to send Telegram notification."
      end
  end.

(** The [console.log] of all request headers that revision 2 makes first
    (line 137). *)
Definition headers_log (rev : revision) (req : Request) : M unit :=
  match rev with
  | Rev2 => console LevelLog [CStr "RAW INCOMING HEADERS:"; CStringifyHeaders req]
  | Rev1 | Rev3 => ret tt
  end.

Definition handler (rev : revision) (env : Env) (req : Request) : M outcome :=
  headers_log rev req ;;
  (if negb (String.eqb (method req) "POST") then
    ret (Respond 405 (Some "POST") "Method Not Allowed")
  else
  match truthy (VERCEL_WEBHOOK_SECRET env) with
  | None =>
      console LevelError [CStr "VERCEL_WEBHOOK_SECRET is not set."] ;;
      reply 500 "Internal server configuration error."
  | Some vercelWebhookSecret =>
  match truthy (x_vercel_signature req) with
  | None =>
      console LevelWarn [CStr "Missing x-vercel-signature header."] ;;
      reply 401 "Signature missing."
  | Some signatureHeader =>
      body <- try_catch (b <- getRawBody req ;; ret (inl b)) (fun error => ret (inr error)) ;;
      match body with
      | inr error =>
          console LevelError [CStr "Error reading raw body:"; CError error] ;;
          reply 500 "Error processing request body."
      | inl rawBody =>
          verdict <- verify_signature rev env vercelWebhookSecret signatureHeader rawBody ;;
          match verdict with
          | Some response => ret response
          | None => process_verified rev env rawBody
          end
      end
  end
  end).

(** ** The handler of part_000

    That module keeps the host's default body parser.  Reading [req.body]
    gives the body the host received, parsed by its media type: for
    [application/json] an empty body gives [{}] and any other body goes
    through [JSON.parse], a failure throwing [ApiError(400, "Invalid JSON")];
    the other media types are not parsed as JSON and do not throw.  A body
    that could not be read makes the access throw.  The value itself is
    never used by the handler. *)
Definition is_json_type (ct : option string) : bool :=
  match ct with Some t => String.eqb t "application/json" | None => false end.

Definition framework_body (env : Env) (req : Request) : M unit :=
  emit EvReadBody ;;
  match raw_body req with
  | None => throw (body_error req)
  | Some b =>
      if is_json_type (content_type req) then
        match b with
        | [] => ret tt
        | _ :: _ =>
            emit (EvFrameworkJsonParse b) ;;
            match json_parse env b with
            | Some _ => ret tt
            | None => throw "Invalid JSON"
            end
        end
      else ret tt
  end.

Definition handler_part000 (env : Env) (req : Request) : M outcome :=
  if negb (String.eqb (method req) "POST") then
    ret (Respond 405 (Some "POST") "Method Not Allowed")
  else
  try_catch
    (framework_body env req ;;
     let message := "Your formatted message from Vercel payload" in
     match truthy (TELEGRAM_TARGET_CHAT_ID env) with
     | None => reply 200 "Webhook received, but Telegram chat ID not configured."
     | Some TARGET_CHAT_ID =>
         success <- sendTelegramMessage (TELEGRAM_BOT_TOKEN env) (remote env)
                      TARGET_CHAT_ID message (Some MarkdownV2) ;;
         if success then reply 200 "Notification sent to Telegram."
         else reply 500 "Failed to send Telegram notification."
     end)
    (fun error =>
       console LevelError [CStr "Error processing Vercel webhook:"; CError error] ;;
       reply 500 "Internal Server Error").

(** Classes of events. *)
Definition is_json_parse (e : event) : bool :=
  match e with EvJsonParse _ => true | _ => false end.

Definition is_outbound (e : event) : bool :=
  match e with EvSendTelegramMessage _ _ _ | EvFetch _ => true | _ => false end.

(** The event types [formatVercelMessageForTelegram] has a case for. *)
Definition known_types : list string :=
  ["deployment.created"; "deployment.succeeded"; "deployment.error";
   "deployment.canceled"; "deployment.promoted"; "project.created";
   "project.removed"; "attack.detected"].

Definition is_known_type (t : string) : bool := existsb (String.eqb t) known_types.



Definition newline : ascii := "010"%char.


(** ** Concrete inputs *)

(** A string written with ['] for the double quote. *)
Fixpoint dq (s : string) : string :=
  match s with
  | EmptyString => EmptyString
  | String c r => String (if Ascii.eqb c "'"%char then "034"%char else c) (dq r)
  end.

(** The body of the scenario of the spec, section 8. *)
Definition body_c8 : bytes :=
  buffer_from (dq "{'type':'deployment.succeeded','createdAt':1700000000000,'payload':{'deployment':{'name':'my-app','url':'my-app.vercel.app','target':'production','alias':['my-app.com']}}}").

Definition dep_c8 : Deployment :=
  {| d_id := ""; d_name := "my-app"; d_url := "my-app.vercel.app"; d_state := None;
     d_target := Some Production; d_alias := Some ["my-app.com"]; d_meta := None;
     d_inspectorUrl := None; d_errorMessage := None |}.

Definition ev_c8 : VercelWebhook :=
  {| w_id := ""; w_type := "deployment.succeeded"; createdAt := 1700000000000;
     userId := ""; teamId := None;
     payload := {| deployment := Some dep_c8; project := None; error := None;
                   attack := None; promotedAlias := None; previousAliases := None |} |}.

(** The HMAC-SHA1 of the empty input under the empty key, standing for the
    hash function on the inputs below. *)
Definition hmac_demo (key : string) (data : bytes) : string :=
  "fbdb1d1b18aa6c08324b7d64b71fb76370690e1d".

Definition telegram_ok : TelegramResponse :=
  {| ok := true; result := Some (JObject [("message_id", JNumber 1)]);
     description := None; error_code := None |}.

(** A host with every variable set, whose JSON parser knows [body_c8] and
    whose messaging API accepts every message. *)
Definition env_demo : Env :=
  {| VERCEL_WEBHOOK_SECRET := Some "s3cret"; TELEGRAM_TARGET_CHAT_ID := Some "42";
     TELEGRAM_BOT_TOKEN := Some "123:abc"; hmac_sha1_hex := hmac_demo;
     json_parse := fun b => if bytes_eqb b body_c8 then Some ev_c8 else None;
     json_error := fun _ => "SyntaxError: Unexpected token in JSON";
     to_locale_string := fun _ => "11/14/2023, 10:13:20 PM";
     remote := fun _ => HttpResponse 200 "OK" (inl telegram_ok) |}.

(** The same deployment with [TELEGRAM_BOT_TOKEN] unset. *)
Definition env_no_token : Env :=
  {| VERCEL_WEBHOOK_SECRET := Some "s3cret"; TELEGRAM_TARGET_CHAT_ID := Some "42";
     TELEGRAM_BOT_TOKEN := None; hmac_sha1_hex := hmac_demo;
     json_parse := fun b => if bytes_eqb b body_c8 then Some ev_c8 else None;
     json_error := fun _ => "SyntaxError: Unexpected token in JSON";
     to_locale_string := fun _ => "11/14/2023, 10:13:20 PM";
     remote := fun _ => HttpResponse 200 "OK" (inl telegram_ok) |}.

Definition post_request (sig : string) (body : bytes) : Request :=
  {| method := "POST"; x_vercel_signature := Some sig;
     content_type := Some "application/json"; raw_body := Some body;
     body_error := "Error: aborted" |}.

(** An event with the given type and no optional payload field. *)
Definition bare_event (t : string) : VercelWebhook :=
  {| w_id := "evt_1"; w_type := t; createdAt := 1700000000000; userId := "u1";
     teamId := None;
     payload := {| deployment := None; project := None; error := None;
                   attack := None; promotedAlias := None; previousAliases := None |} |}.

Definition locale_en_us (ms : Z) : string := "11/14/2023, 10:13:20 PM".
Definition locale_de_de (ms : Z) : string := "14.11.2023, 22:13:20".

(** The same deployment with [TELEGRAM_TARGET_CHAT_ID] unset. *)
Definition env_no_chat : Env :=
  {| VERCEL_WEBHOOK_SECRET := Some "s3cret"; TELEGRAM_TARGET_CHAT_ID := None;
     TELEGRAM_BOT_TOKEN := Some "123:abc"; hmac_sha1_hex := hmac_demo;
     json_parse := fun b => if bytes_eqb b body_c8 then Some ev_c8 else None;
     json_error := fun _ => "SyntaxError: Unexpected token in JSON";
     to_locale_string := fun _ => "11/14/2023, 10:13:20 PM";
     remote := fun _ => HttpResponse 200 "OK" (inl telegram_ok) |}.

(** ** Auxiliary definitions for the properties *)

(** The number of reserved characters of a string. *)
Fixpoint count_reserved (s : string) : nat :=
  match s with
  | EmptyString => 0
  | String c rest => ((if is_reserved c then 1 else 0) + count_reserved rest)%nat
  end.

(** Decoding of the first latin1 character of a UTF-8 buffer (the inverse
    of [utf8_of_char] on its image). *)
Definition utf8_decode_first (bs : bytes) : option (ascii * bytes) :=
  match bs with
  | [] => None
  | b1 :: rest =>
      let n1 := Byte.to_N b1 in
      if (n1 <? 128)%N then Some (ascii_of_N n1, rest)
      else match rest with
           | [] => None
           | b2 :: rest' =>
               Some (ascii_of_N ((n1 - 192) * 64 + (Byte.to_N b2 - 128))%N, rest')
           end
  end.

Definition is_send (e : event) : bool :=
  match e with EvSendTelegramMessage _ _ _ => true | _ => false end.

Definition is_fetch (e : event) : bool :=
  match e with EvFetch _ => true | _ => false end.

(** Events of the signature check. *)
Definition is_verify_event (e : event) : bool :=
  match e with EvHmacSha1 _ _ | EvTimingSafeEqual _ _ => true | _ => false end.

(** The request with its [x-vercel-signature] header replaced. *)
Definition with_signature (req : Request) (sig : string) : Request :=
  {| method := method req; x_vercel_signature := Some sig;
     content_type := content_type req; raw_body := raw_body req;
     body_error := body_error req |}.

(** Every response the handler revisions of
    src/api/vercel-notifications-to-telegram.ts send. *)
Definition handler_responses : list outcome :=
  [Respond 405 (Some "POST") "Method Not Allowed";
   Respond 500 None "Internal server configuration error.";
   Respond 401 None "Signature missing.";
   Respond 500 None "Error processing request body.";
   Respond 401 None "Invalid signature due to length mismatch.";
   Respond 401 None "Invalid signature.";
   Respond 400 None "Invalid JSON payload.";
   Respond 200 None "Webhook received, but Telegram chat ID not configured.";
   Respond 200 None "Notification sent to Telegram.";
   Respond 500 None "Failed to send Telegram notification."].

(** Every response the handler of part_000 sends. *)
Definition part000_responses : list outcome :=
  [Respond 405 (Some "POST") "Method Not Allowed";
   Respond 200 None "Webhook received, but Telegram chat ID not configured.";
   Respond 200 None "Notification sent to Telegram.";
   Respond 500 None "Failed to send Telegram notification.";
   Respond 500 None "Internal Server Error"].

(** The [console.log] calls each revision makes between the HMAC and the
    length check. *)
Definition debug_logs (rev : revision) (header expected : string) : list (list console_arg) :=
  match rev with
  | Rev1 => []
  | Rev2 => rev2_debug_logs header expected
  | Rev3 => rev3_debug_logs header expected
  end.

(** The console calls after [timingSafeEqual] returned [eq]. *)
Definition verdict_events (rev : revision) (eq : bool) : list event :=
  match rev, eq with
  | Rev2, true => [EvConsole LevelLog [CStr "Signature validation passed."]]
  | _, true => []
  | Rev1, false => [EvConsole LevelWarn [CStr "Invalid signature."]]
  | _, false => [EvConsole LevelWarn [CStr "Invalid signature (timingSafeEqual failed)."]]
  end.

(** The [console.error] call on a byte-length mismatch (revisions 2 and
    3). *)
Definition mismatch_event (rev : revision) (hb eb : bytes) : event :=
  match rev with
  | Rev2 =>
      EvConsole LevelError
        [CStr ("Signature and expected hash buffers have different byte lengths. " ++
               "Received: " ++ decimal_nat (List.length hb) ++
               ", Expected: " ++ decimal_nat (List.length eb) ++ ". " ++
               "This could mean the 'x-vercel-signature' header unexpectedly contained 'sha1=' or was malformed.")]
  | Rev1 | Rev3 =>
      EvConsole LevelError
        [CStr "Signature buffers have different byte lengths. Cannot use timingSafeEqual."]
  end.

(** The events of [headers_log]. *)
Definition headers_events (rev : revision) (req : Request) : list event :=
  match rev with
  | Rev2 => [EvConsole LevelLog [CStr "RAW INCOMING HEADERS:"; CStringifyHeaders req]]
  | Rev1 | Rev3 => []
  end.

Definition is_console (e : event) : bool :=
  match e with EvConsole _ _ => true | _ => false end.

Definition range_error : string :=
  "RangeError: Input buffers must have the same byte length".

(** Events that only report: the outbound calls and the console. *)
Definition quiet (e : event) : bool := is_outbound e || is_console e.

(** Events that do not parse a body. *)
Definition parse_free (e : event) : bool :=
  match e with EvJsonParse _ | EvFrameworkJsonParse _ => false | _ => true end.

(** An event of a run on [req] that parses nothing and hashes only the raw
    body of [req]. *)
Definition benign (req : Request) (e : event) : Prop :=
  parse_free e = true /\ forall k d, e = EvHmacSha1 k d -> raw_body req = Some d.

(** The events of the host's body parser of part_000 on the raw body [b]. *)
Definition framework_events (req : Request) (b : bytes) : list event :=
  if is_json_type (content_type req) then
    match b with
    | [] => [EvReadBody]
    | _ :: _ => [EvReadBody; EvFrameworkJsonParse b]
    end
  else [EvReadBody].

(** Whether the host's body parser of part_000 accepts the raw body [b]. *)
Definition framework_ok (env : Env) (req : Request) (b : bytes) : bool :=
  if is_json_type (content_type req) then
    match b with
    | [] => true
    | _ :: _ => match json_parse env b with Some _ => true | None => false end
    end
  else true.

Definition not_console (e : event) : bool := negb (is_console e).

(** The request [sendTelegramMessage] sends with a given token. *)
Definition telegram_request (token chatId messageText : string)
    (parseMode : option parse_mode) : fetch_request :=
  {| fetch_url := "https://api.telegram.org/bot" ++ token ++ "/sendMessage";
     fetch_body := {| chat_id := chatId; text := messageText;
                      parse_mode_field := parseMode |} |}.

(** What [sendTelegramMessage] returns and logs once the remote side has
    answered [fr]. *)
Definition send_tail (chatId : string) (fr : fetch_result) : bool * list event :=
  let network (e : string) :=
    (false, [EvConsole LevelError
               [CStr ("Network or fetch error sending Telegram message to chat_id " ++
                      chatId ++ ":"); CError e]]) in
  match fr with
  | NetworkError e => network e
  | HttpResponse status statusText body =>
      if negb (response_ok status) then
        match body with
        | inr _ =>
            (false, [EvConsole LevelError
                       [CStr ("Telegram API Error for chat_id " ++ chatId ++ ": HTTP " ++
                              decimal_Z status ++ " - " ++ statusText ++
                              ". Failed to parse error response body.")]])
        | inl d =>
            (false, [EvConsole LevelError
                       [CStr ("Telegram API Error for chat_id " ++ chatId ++ ": HTTP " ++
                              decimal_Z status ++ " - " ++ js_or (description d) statusText)]])
        end
      else
        match body with
        | inr e => network e
        | inl r =>
            if ok r then
              (true, [EvConsole LevelLog
                        [CStr ("Message sent successfully to chat_id " ++ chatId ++ ":");
                         CValue (result r)]])
            else
              (false, [EvConsole LevelError
                         [CStr ("Telegram API reported not OK for chat_id " ++ chatId ++ ": " ++
                                template_opt (description r))]])
        end
  end.

(** [s.includes(sub)] *)
Definition contains (sub s : string) : Prop := exists a b, s = a ++ sub ++ b.

(** * Properties *)

(** ** escapeMarkdown *)

Lemma backslash_not_reserved : is_reserved backslash = false.
Proof. reflexivity. Qed.

Lemma escape_replace_prefixed (t : string) (i : nat) (c : ascii) :
  String.get i (escape_replace t) = Some c -> is_reserved c = true ->
  exists j, i = S j /\ String.get j (escape_replace t) = Some backslash.
Proof.
  revert i c. induction t as [|a t IH]; intros i c Hget Hres; simpl in Hget.
  - discriminate.
  - destruct (is_reserved a) eqn:Ea.
    + destruct i as [|[|k]]; simpl in Hget.
      * injection Hget as <-. rewrite backslash_not_reserved in Hres. discriminate.
      * exists 0%nat. split; [reflexivity|]. simpl. rewrite Ea. reflexivity.
      * destruct (IH k c Hget Hres) as [j [-> Hj]].
        exists (S (S j)). split; [reflexivity|]. simpl. rewrite Ea. exact Hj.
    + destruct i as [|k]; simpl in Hget.
      * injection Hget as <-. congruence.
      * destruct (IH k c Hget Hres) as [j [-> Hj]].
        exists (S j). split; [reflexivity|]. simpl. rewrite Ea. exact Hj.
Qed.

Lemma escape_replace_no_reserved (t : string) :
  has_reserved t = false -> escape_replace t = t.
Proof.
  induction t as [|a t IH]; simpl; [reflexivity|].
  intros H. apply orb_false_iff in H as [Ha Ht].
  rewrite Ha, IH by exact Ht. reflexivity.
Qed.

Lemma escape_replace_length_ge (t : string) :
  (String.length t <= String.length (escape_replace t))%nat.
Proof.
  induction t as [|a t IH]; simpl; [lia|].
  destruct (is_reserved a); simpl; lia.
Qed.

Lemma escape_replace_length_gt (t : string) :
  has_reserved t = true -> (String.length t < String.length (escape_replace t))%nat.
Proof.
  induction t as [|a t IH]; simpl; [discriminate|].
  intros H. pose proof (escape_replace_length_ge t).
  destruct (is_reserved a); simpl in *.
  - lia.
  - specialize (IH H). lia.
Qed.

Lemma escape_replace_has_reserved (t : string) :
  has_reserved (escape_replace t) = has_reserved t.
Proof.
  induction t as [|a t IH]; simpl; [reflexivity|].
  destruct (is_reserved a) eqn:Ea; simpl; rewrite ?Ea, ?IH; reflexivity.
Qed.

(** C6: in [escapeMarkdown t] every reserved MarkdownV2 character is
    immediately preceded by a backslash; escaping twice agrees with escaping
    once exactly when [t] holds no reserved character, and then escaping
    leaves [t] unchanged. *)
Theorem escapeMarkdown_prefixed_and_idempotence (t : string) :
  (forall (i : nat) (c : ascii),
     String.get i (escapeMarkdown (JSString t)) = Some c ->
     is_reserved c = true ->
     exists j, i = S j /\ String.get j (escapeMarkdown (JSString t)) = Some backslash)
  /\ (escapeMarkdown (JSString (escapeMarkdown (JSString t))) = escapeMarkdown (JSString t)
      <-> has_reserved t = false)
  /\ (has_reserved t = false -> escapeMarkdown (JSString t) = t).
Proof.
  simpl. split; [|split].
  - apply escape_replace_prefixed.
  - split.
    + intros Heq. destruct (has_reserved t) eqn:Hr; [|reflexivity].
      exfalso.
      assert (Hr' : has_reserved (escape_replace t) = true)
        by (rewrite escape_replace_has_reserved; exact Hr).
      pose proof (escape_replace_length_gt _ Hr') as Hlt.
      rewrite Heq in Hlt. lia.
    + intros Hr. rewrite !escape_replace_no_reserved; [reflexivity | exact Hr | ].
      rewrite escape_replace_no_reserved; exact Hr.
  - apply escape_replace_no_reserved.
Qed.

(** C7: [escapeMarkdown(null)] and [escapeMarkdown(undefined)] are both the
    empty string. *)
Theorem escapeMarkdown_nullish : escapeMarkdown JSNull = "" /\ escapeMarkdown JSUndefined = "".
Proof. split; reflexivity. Qed.

(** ** sendTelegramMessage *)

Lemma response_ok_spec (status : Z) :
  response_ok status = true <-> 200 <= status <= 299.
Proof.
  unfold response_ok. rewrite andb_true_iff, !Z.leb_le. reflexivity.
Qed.

Lemma sendTelegramMessage_no_token (fetch : fetch_request -> fetch_result)
    (chatId messageText : string) (parseMode : option parse_mode) :
  sendTelegramMessage None fetch chatId messageText parseMode
  = (Ok false, [EvSendTelegramMessage chatId messageText parseMode;
                EvConsole LevelError [CStr "Error: TELEGRAM_BOT_TOKEN environment variable not set."]]).
Proof. reflexivity. Qed.

Lemma sendTelegramMessage_token (token : string) (BOT_TOKEN : option string)
    (fetch : fetch_request -> fetch_result)
    (chatId messageText : string) (parseMode : option parse_mode) :
  truthy BOT_TOKEN = Some token ->
  let req := telegram_request token chatId messageText parseMode in
  sendTelegramMessage BOT_TOKEN fetch chatId messageText parseMode
  = (Ok (fst (send_tail chatId (fetch req))),
     EvSendTelegramMessage chatId messageText parseMode :: EvFetch req
       :: snd (send_tail chatId (fetch req))).
Proof.
  intros Ht. unfold sendTelegramMessage. rewrite Ht. cbv zeta.
  assert (Hp : match parseMode with
               | Some m => {| chat_id := chatId; text := messageText; parse_mode_field := Some m |}
               | None => {| chat_id := chatId; text := messageText; parse_mode_field := None |}
               end = {| chat_id := chatId; text := messageText; parse_mode_field := parseMode |})
    by (destruct parseMode; reflexivity).
  rewrite Hp. fold (telegram_request token chatId messageText parseMode).
  unfold fetch_io, send_tail.
  destruct (fetch (telegram_request token chatId messageText parseMode))
    as [msg | status st [r|e]]; simpl; [reflexivity| |];
    destruct (response_ok status); simpl; try reflexivity.
  destruct (ok r); reflexivity.
Qed.

(** C5: for every token, target, text, mode and remote behaviour,
    [sendTelegramMessage] completes with a boolean (it never throws), and
    the boolean is [true] exactly when it issued the remote call, that call
    answered with a 2xx status and a JSON body whose [ok] is [true], and it
    logged the success; a 2xx answer with [ok] false, a non-2xx answer
    (parsable or not) and a network failure all give [false]. *)
Theorem sendTelegramMessage_bool_never_throws (BOT_TOKEN : option string)
    (fetch : fetch_request -> fetch_result)
    (chatId messageText : string) (parseMode : option parse_mode) :
  exists (b : bool) (trace : list event),
    sendTelegramMessage BOT_TOKEN fetch chatId messageText parseMode = (Ok b, trace) /\
    (b = true <->
     exists req status statusText r,
       trace = [EvSendTelegramMessage chatId messageText parseMode; EvFetch req;
                EvConsole LevelLog
                  [CStr ("Message sent successfully to chat_id " ++ chatId ++ ":");
                   CValue (result r)]] /\
       fetch req = HttpResponse status statusText (inl r) /\
       200 <= status <= 299 /\ ok r = true).
Proof.
  destruct (truthy BOT_TOKEN) as [token|] eqn:Ht.
  - rewrite (sendTelegramMessage_token token BOT_TOKEN fetch chatId messageText parseMode Ht).
    set (req := telegram_request token chatId messageText parseMode).
    do 2 eexists. split; [reflexivity|]. split.
    + unfold send_tail.
      destruct (fetch req) as [msg | status st [r|e]] eqn:Hf; simpl; try discriminate;
        destruct (response_ok status) eqn:Hs; simpl; try discriminate.
      destruct (ok r) eqn:Hr; simpl; try discriminate.
      intros _. exists req, status, st, r.
      repeat split; try assumption; apply response_ok_spec; exact Hs.
    + intros (req' & status & st & r & Htr & Hf & Hs & Hr).
      injection Htr as <-. rewrite Hf. unfold send_tail.
      apply response_ok_spec in Hs. rewrite Hs, Hr. reflexivity.
  - assert (Hs : sendTelegramMessage BOT_TOKEN fetch chatId messageText parseMode
                 = (Ok false, [EvSendTelegramMessage chatId messageText parseMode;
                               EvConsole LevelError
                                 [CStr "Error: TELEGRAM_BOT_TOKEN environment variable not set."]]))
      by (unfold sendTelegramMessage; rewrite Ht; reflexivity).
    rewrite Hs. do 2 eexists. split; [reflexivity|]. split; [discriminate|].
    intros (req & status & st & r & Htr & _). discriminate.
Qed.

(** ** Unfolding the handler *)

Lemma emit_all_eq (calls : list (list console_arg)) :
  emit_all calls = (Ok tt, map (EvConsole LevelLog) calls).
Proof.
  induction calls as [|m calls IH]; [reflexivity|].
  simpl. rewrite IH. reflexivity.
Qed.

(** What each revision's verification does, in one equation. *)
Lemma verify_signature_eq (rev : revision) (env : Env) (s h : string) (b : bytes) :
  verify_signature rev env s h b =
  (let hb := buffer_from h in
   let eb := buffer_from (expected_signature rev env s b) in
   let dbg := map (EvConsole LevelLog) (debug_logs rev h (expected_signature rev env s b)) in
   if Nat.eqb (List.length hb) (List.length eb) then
     (Ok (if bytes_eqb hb eb then None else Some (Respond 401 None "Invalid signature.")),
      EvHmacSha1 s b :: app dbg (EvTimingSafeEqual hb eb :: verdict_events rev (bytes_eqb hb eb)))
   else
     match rev with
     | Rev1 => (Throw range_error, [EvHmacSha1 s b; EvTimingSafeEqual hb eb])
     | Rev2 | Rev3 =>
         (Ok (Some (Respond 401 None "Invalid signature due to length mismatch.")),
          EvHmacSha1 s b :: app dbg [mismatch_event rev hb eb])
     end).
Proof.
  destruct rev; simpl;
    unfold verify_rev1, verify_rev2, verify_rev3, calculateSha1Hash,
      createHmac_sha1_hex, timingSafeEqual, console; simpl;
    rewrite ?emit_all_eq; simpl;
    destruct (Nat.eqb _ _); simpl; try reflexivity;
    destruct (bytes_eqb _ _); simpl; rewrite ?app_nil_r; reflexivity.
Qed.

(** What the common tail does, in one equation. *)
Lemma process_verified_eq (rev : revision) (env : Env) (b : bytes) :
  process_verified rev env b =
  match json_parse env b with
  | None =>
      (Ok (Respond 400 None "Invalid JSON payload."),
       [EvJsonParse b; EvConsole LevelError [CStr (json_error_label rev); CError (json_error env b)]])
  | Some w =>
      match truthy (TELEGRAM_TARGET_CHAT_ID env) with
      | None =>
          (Ok (Respond 200 None "Webhook received, but Telegram chat ID not configured."),
           [EvJsonParse b; EvConsole LevelLog (parsed_log rev w);
            EvConsole LevelError [CStr "TELEGRAM_TARGET_CHAT_ID environment variable not set."]])
      | Some chat =>
          let (msg, logs) := formatVercelMessageForTelegram (to_locale_string env) w in
          let (r, st) := sendTelegramMessage (TELEGRAM_BOT_TOKEN env) (remote env)
                           chat msg (Some MarkdownV2) in
          (match r with
           | Ok true => Ok (Respond 200 None "Notification sent to Telegram.")
           | Ok false => Ok (Respond 500 None "Failed to send Telegram notification.")
           | Throw e => Throw e
           end,
           EvJsonParse b :: EvConsole LevelLog (parsed_log rev w) :: app (map (EvConsole LevelLog) logs) st)
      end
  end.
Proof.
  unfold process_verified, console.
  destruct (json_parse env b) as [w|]; simpl; [|reflexivity].
  destruct (truthy (TELEGRAM_TARGET_CHAT_ID env)) as [chat|]; simpl; [|reflexivity].
  destruct (formatVercelMessageForTelegram (to_locale_string env) w) as [msg logs].
  rewrite emit_all_eq. simpl.
  destruct (sendTelegramMessage _ _ _ _ _) as [[[|]|e] st]; simpl;
    rewrite ?app_nil_r; reflexivity.
Qed.

(** What a handler revision does, in one equation. *)
Lemma handler_eq (rev : revision) (env : Env) (req : Request) :
  handler rev env req =
  let hl := headers_events rev req in
  if negb (String.eqb (method req) "POST") then
    (Ok (Respond 405 (Some "POST") "Method Not Allowed"), hl)
  else
  match truthy (VERCEL_WEBHOOK_SECRET env) with
  | None =>
      (Ok (Respond 500 None "Internal server configuration error."),
       app hl [EvConsole LevelError [CStr "VERCEL_WEBHOOK_SECRET is not set."]])
  | Some s =>
  match truthy (x_vercel_signature req) with
  | None =>
      (Ok (Respond 401 None "Signature missing."),
       app hl [EvConsole LevelWarn [CStr "Missing x-vercel-signature header."]])
  | Some h =>
  match raw_body req with
  | None =>
      (Ok (Respond 500 None "Error processing request body."),
       app hl [EvReadBody; EvConsole LevelError [CStr "Error reading raw body:"; CError (body_error req)]])
  | Some b =>
      let (r, vt) := verify_signature rev env s h b in
      match r with
      | Throw e => (Throw e, app hl (EvReadBody :: vt))
      | Ok (Some o) => (Ok o, app hl (EvReadBody :: vt))
      | Ok None =>
          let (r2, pt) := process_verified rev env b in
          (r2, app hl (EvReadBody :: app vt pt))
      end
  end
  end
  end.
Proof.
  assert (Hh : headers_log rev req = (Ok tt, headers_events rev req))
    by (destruct rev; reflexivity).
  unfold handler. rewrite Hh. cbv zeta. unfold bind at 1.
  destruct (negb _); [simpl; rewrite app_nil_r; reflexivity|].
  unfold console, reply.
  destruct (truthy (VERCEL_WEBHOOK_SECRET env)) as [s|]; [|reflexivity].
  destruct (truthy (x_vercel_signature req)) as [h|]; [|reflexivity].
  unfold getRawBody; destruct (raw_body req) as [b|]; simpl; [|reflexivity].
  destruct (verify_signature rev env s h b) as [[[o|]|e] vt]; simpl;
    rewrite ?app_nil_r; try reflexivity.
  destruct (process_verified rev env b) as [r2 pt]; reflexivity.
Qed.

(** ** Signature verification *)

Lemma buffer_from_append (a b : string) :
  buffer_from (a ++ b) = app (buffer_from a) (buffer_from b).
Proof.
  induction a as [|c a IH]; simpl; [reflexivity|].
  rewrite IH, app_assoc. reflexivity.
Qed.

Lemma bytes_eqb_refl (a : bytes) : bytes_eqb a a = true.
Proof. unfold bytes_eqb. destruct (list_eq_dec _ a a); congruence. Qed.

Lemma bytes_eqb_true (a b : bytes) : bytes_eqb a b = true -> a = b.
Proof. unfold bytes_eqb. destruct (list_eq_dec _ a b); congruence. Qed.

Lemma sha1_prefix_length (d : string) :
  List.length (buffer_from ("sha1=" ++ d)) = (5 + List.length (buffer_from d))%nat.
Proof. rewrite buffer_from_append. rewrite length_app. reflexivity. Qed.

(** In the revisions at lines 135-243 and 274-379 a byte-length mismatch
    is answered 401 before [timingSafeEqual] is reached, and nothing is
    dispatched. *)
Lemma length_mismatch_rejected_rev2_rev3 (rev : revision) (env : Env) (req : Request)
    (s h : string) (b : bytes) :
  rev <> Rev1 ->
  String.eqb (method req) "POST" = true ->
  truthy (VERCEL_WEBHOOK_SECRET env) = Some s ->
  truthy (x_vercel_signature req) = Some h ->
  raw_body req = Some b ->
  List.length (buffer_from h) <> List.length (buffer_from (expected_signature rev env s b)) ->
  serve (handler rev env req)
  = (Respond 401 None "Invalid signature due to length mismatch.",
     app (headers_events rev req)
       (EvReadBody :: EvHmacSha1 s b
          :: app (map (EvConsole LevelLog) (debug_logs rev h (expected_signature rev env s b)))
                 [mismatch_event rev (buffer_from h)
                    (buffer_from (expected_signature rev env s b))])).
Proof.
  intros Hrev Hm Hs Hh Hb Hlen.
  rewrite handler_eq, Hm, Hs, Hh, Hb, verify_signature_eq. cbv zeta.
  apply Nat.eqb_neq in Hlen. rewrite Hlen. simpl.
  destruct rev; [congruence | reflexivity | reflexivity].
Qed.

(** C1 (the revision at lines 28-103): a POST whose signature header has a
    byte length different from the expected value's reaches
    [timingSafeEqual] with buffers of unequal lengths, which throws a
    [RangeError] that nothing catches: the handler answers no 401. *)
Theorem rev1_length_mismatch_throws (env : Env) (req : Request) (s h : string) (b : bytes) :
  String.eqb (method req) "POST" = true ->
  truthy (VERCEL_WEBHOOK_SECRET env) = Some s ->
  truthy (x_vercel_signature req) = Some h ->
  raw_body req = Some b ->
  List.length (buffer_from h) <> List.length (buffer_from (expected_signature Rev1 env s b)) ->
  serve (handler Rev1 env req)
  = (Unhandled range_error,
     [EvReadBody; EvHmacSha1 s b;
      EvTimingSafeEqual (buffer_from h) (buffer_from (expected_signature Rev1 env s b))]).
Proof.
  intros Hm Hs Hh Hb Hlen.
  rewrite handler_eq, Hm, Hs, Hh, Hb, verify_signature_eq. cbv zeta.
  apply Nat.eqb_neq in Hlen. rewrite Hlen. simpl. reflexivity.
Qed.

Lemma rev1_length_mismatch_throws_witness :
  serve (handler Rev1 env_demo (post_request "abc" body_c8))
  = (Unhandled range_error,
     [EvReadBody; EvHmacSha1 "s3cret" body_c8;
      EvTimingSafeEqual (buffer_from "abc")
        (buffer_from (expected_signature Rev1 env_demo "s3cret" body_c8))]).
Proof.
  apply (rev1_length_mismatch_throws env_demo (post_request "abc" body_c8) "s3cret" "abc" body_c8);
    [reflexivity | reflexivity | reflexivity | reflexivity | vm_compute; discriminate].
Defined.

Lemma verify_signature_expected (rev : revision) (env : Env) (s : string) (b : bytes) :
  verify_signature rev env s (expected_signature rev env s b) b
  = (Ok None, EvHmacSha1 s b
               :: app (map (EvConsole LevelLog)
                           (debug_logs rev (expected_signature rev env s b)
                                       (expected_signature rev env s b)))
                      (EvTimingSafeEqual (buffer_from (expected_signature rev env s b))
                                         (buffer_from (expected_signature rev env s b))
                       :: verdict_events rev true)).
Proof.
  rewrite verify_signature_eq. cbv zeta.
  rewrite Nat.eqb_refl, bytes_eqb_refl. reflexivity.
Qed.

(** C2, counterexample: the revision at lines 274-379 does not accept the
    bare digest as the header value. *)
Lemma bare_digest_rejected_rev3 :
  fst (serve (handler Rev3 env_demo (post_request (hmac_demo "s3cret" body_c8) body_c8)))
  = Respond 401 None "Invalid signature due to length mismatch.".
Proof. vm_compute. reflexivity. Qed.

(** C2, as the code has it: for every body and secret, each revision's
    verification passes when the header carries that revision's expected
    value (the bare hex digest for the revision at lines 135-243, [sha1=]
    followed by it for those at lines 28-103 and 274-379), and the handler
    goes on to parse the body; in the two prefixed revisions the bare digest
    is never accepted. *)
Theorem verify_accepts_expected_signature (rev : revision) (env : Env) (s : string) (b : bytes) :
  verify_signature rev env s (expected_signature rev env s b) b
  = (Ok None, EvHmacSha1 s b
               :: app (map (EvConsole LevelLog)
                           (debug_logs rev (expected_signature rev env s b)
                                       (expected_signature rev env s b)))
                      (EvTimingSafeEqual (buffer_from (expected_signature rev env s b))
                                         (buffer_from (expected_signature rev env s b))
                       :: verdict_events rev true))
  /\ (rev <> Rev2 ->
      fst (verify_signature rev env s (hmac_sha1_hex env s b) b) <> Ok None).
Proof.
  split.
  - apply verify_signature_expected.
  - intros Hrev. rewrite verify_signature_eq. cbv zeta.
    assert (Hl : Nat.eqb (List.length (buffer_from (hmac_sha1_hex env s b)))
                         (List.length (buffer_from (expected_signature rev env s b))) = false).
    { apply Nat.eqb_neq.
      assert (He : expected_signature rev env s b = "sha1=" ++ hmac_sha1_hex env s b)
        by (destruct rev; [reflexivity | congruence | reflexivity]).
      rewrite He, sha1_prefix_length. lia. }
    rewrite Hl. destruct rev; simpl; discriminate.
Qed.

(** ** Helpers: events, and the effects of sendTelegramMessage *)

Lemma snd_serve (m : M outcome) : snd (serve m) = snd m.
Proof. destruct m as [[o|e] t]; reflexivity. Qed.

Ltac split_in Hin :=
  repeat match type of Hin with _ \/ _ => destruct Hin as [Hin|Hin] end.

Ltac in_list := simpl; repeat (first [left; reflexivity | right]).

Ltac destruct_matches :=
  repeat match goal with
         | |- context [match ?x with _ => _ end] => destruct x
         end.

(** Membership in a trace built from [app] and [::], found at the right. *)
Ltac in_trace :=
  repeat first [ left; reflexivity | apply in_or_app; right | right ].

Lemma truthy_nonempty (x : string) : x <> "" -> truthy (Some x) = Some x.
Proof.
  intros Hx. unfold truthy. destruct (String.eqb x "") eqn:E; [|reflexivity].
  apply String.eqb_eq in E. contradiction.
Qed.

Lemma truthy_none (o : option string) : truthy o = None -> o = None \/ o = Some "".
Proof.
  destruct o as [s|]; simpl; [|left; reflexivity].
  destruct (String.eqb_spec s "") as [->|]; [right; reflexivity | discriminate].
Qed.

Lemma truthy_some (o : option string) (x : string) : truthy o = Some x -> o = Some x.
Proof.
  destruct o as [s|]; simpl; [|discriminate].
  destruct (String.eqb s ""); [discriminate|congruence].
Qed.

Lemma parse_free_json (e : event) : parse_free e = true -> is_json_parse e = false.
Proof. destruct e; simpl; congruence. Qed.

Lemma quiet_benign (req : Request) (e : event) : quiet e = true -> benign req e.
Proof.
  intros H. split.
  - destruct e; try reflexivity; discriminate H.
  - intros k d ->. discriminate H.
Qed.

Lemma console_quiet (e : event) : is_console e = true -> quiet e = true.
Proof. intros H. unfold quiet. rewrite H, orb_true_r. reflexivity. Qed.

Lemma in_console_map (lv : console_level) (l : list (list console_arg)) (e : event) :
  In e (map (EvConsole lv) l) -> is_console e = true.
Proof. intros H. apply in_map_iff in H as (x & <- & _). reflexivity. Qed.

Lemma headers_events_console (rev : revision) (req : Request) (e : event) :
  In e (headers_events rev req) -> is_console e = true.
Proof. destruct rev; simpl; intros H; split_in H; subst; solve [reflexivity | contradiction]. Qed.

Lemma verdict_events_console (rev : revision) (x : bool) (e : event) :
  In e (verdict_events rev x) -> is_console e = true.
Proof. destruct rev, x; simpl; intros H; split_in H; subst; solve [reflexivity | contradiction]. Qed.

Lemma mismatch_event_console (rev : revision) (hb eb : bytes) :
  is_console (mismatch_event rev hb eb) = true.
Proof. destruct rev; reflexivity. Qed.

Lemma headers_events_benign (rev : revision) (req : Request) :
  Forall (benign req) (headers_events rev req).
Proof.
  apply Forall_forall. intros e He. apply quiet_benign, console_quiet.
  exact (headers_events_console _ _ _ He).
Qed.

Lemma verdict_events_benign (req : Request) (rev : revision) (x : bool) :
  Forall (benign req) (verdict_events rev x).
Proof.
  apply Forall_forall. intros e He. apply quiet_benign, console_quiet.
  exact (verdict_events_console _ _ _ He).
Qed.

Lemma console_map_benign (req : Request) (lv : console_level) (l : list (list console_arg)) :
  Forall (benign req) (map (EvConsole lv) l).
Proof.
  apply Forall_forall. intros e He. apply quiet_benign, console_quiet.
  exact (in_console_map _ _ _ He).
Qed.

Lemma mismatch_event_benign (req : Request) (rev : revision) (hb eb : bytes) :
  benign req (mismatch_event rev hb eb).
Proof. apply quiet_benign, console_quiet, mismatch_event_console. Qed.

(** A list of events that parse nothing and hash only the raw body. *)
Ltac benign_list :=
  repeat first
    [ apply Forall_nil
    | apply Forall_cons
    | apply headers_events_benign
    | apply verdict_events_benign
    | apply console_map_benign
    | apply mismatch_event_benign
    | apply (proj2 (Forall_app _ _ _)); split
    | apply quiet_benign; reflexivity
    | split; [reflexivity | intros ? ? Hk; discriminate Hk]
    | split; [reflexivity | intros ? ? Hk; injection Hk as <- <-; assumption] ].

Lemma filter_none {A} (f : A -> bool) (l : list A) :
  (forall x, In x l -> f x = false) -> filter f l = [].
Proof.
  induction l as [|x l IH]; simpl; intros H; [reflexivity|].
  rewrite (H x (or_introl eq_refl)). apply IH. intros y Hy. apply H. right. exact Hy.
Qed.

Lemma filter_le1_app {A} (f : A -> bool) (l1 l2 : list A) :
  (forall x, In x l1 -> f x = false) ->
  (List.length (filter f l2) <= 1)%nat -> (List.length (filter f (app l1 l2)) <= 1)%nat.
Proof. intros H1 H2. rewrite filter_app, (filter_none f l1 H1). exact H2. Qed.

Lemma filter_le1_cons {A} (f : A -> bool) (x : A) (l : list A) :
  f x = false -> (List.length (filter f l) <= 1)%nat ->
  (List.length (filter f (x :: l)) <= 1)%nat.
Proof. intros H1 H2. simpl. rewrite H1. exact H2. Qed.

Lemma send_tail_console (c : string) (fr : fetch_result) (e : event) :
  In e (snd (send_tail c fr)) -> is_console e = true.
Proof.
  unfold send_tail. cbv zeta. destruct_matches; simpl; intros H; split_in H;
    subst; solve [reflexivity | contradiction].
Qed.

Lemma sendTelegramMessage_untruthy (BOT_TOKEN : option string)
    (fetch : fetch_request -> fetch_result) (c m : string) (p : option parse_mode) :
  truthy BOT_TOKEN = None ->
  sendTelegramMessage BOT_TOKEN fetch c m p
  = (Ok false, [EvSendTelegramMessage c m p;
                EvConsole LevelError [CStr "Error: TELEGRAM_BOT_TOKEN environment variable not set."]]).
Proof. intros Ht. unfold sendTelegramMessage. rewrite Ht. reflexivity. Qed.

Lemma sendTelegramMessage_cases (BOT_TOKEN : option string)
    (fetch : fetch_request -> fetch_result) (c m : string) (p : option parse_mode) :
  (truthy BOT_TOKEN = None /\
   sendTelegramMessage BOT_TOKEN fetch c m p
   = (Ok false, [EvSendTelegramMessage c m p;
                 EvConsole LevelError [CStr "Error: TELEGRAM_BOT_TOKEN environment variable not set."]]))
  \/ exists token, truthy BOT_TOKEN = Some token /\
     sendTelegramMessage BOT_TOKEN fetch c m p
     = (Ok (fst (send_tail c (fetch (telegram_request token c m p)))),
        EvSendTelegramMessage c m p :: EvFetch (telegram_request token c m p)
          :: snd (send_tail c (fetch (telegram_request token c m p)))).
Proof.
  destruct (truthy BOT_TOKEN) as [token|] eqn:Ht.
  - right. exists token. split; [reflexivity|].
    exact (sendTelegramMessage_token token BOT_TOKEN fetch c m p Ht).
  - left. split; [reflexivity|]. exact (sendTelegramMessage_untruthy _ _ _ _ _ Ht).
Qed.

Lemma sendTelegramMessage_shape (BOT_TOKEN : option string)
    (fetch : fetch_request -> fetch_result) (c m : string) (p : option parse_mode) :
  exists b rest, sendTelegramMessage BOT_TOKEN fetch c m p
                 = (Ok b, EvSendTelegramMessage c m p :: rest).
Proof.
  destruct (sendTelegramMessage_cases BOT_TOKEN fetch c m p) as [[_ ->] | (tok & _ & ->)];
    do 2 eexists; reflexivity.
Qed.

(** Besides the dispatch itself and its one request, [sendTelegramMessage]
    only writes to the console. *)
Lemma sendTelegramMessage_events (BOT_TOKEN : option string)
    (fetch : fetch_request -> fetch_result) (c m : string) (p : option parse_mode) (e : event) :
  In e (snd (sendTelegramMessage BOT_TOKEN fetch c m p)) ->
  e = EvSendTelegramMessage c m p
  \/ (exists token, truthy BOT_TOKEN = Some token /\ e = EvFetch (telegram_request token c m p))
  \/ is_console e = true.
Proof.
  destruct (sendTelegramMessage_cases BOT_TOKEN fetch c m p) as [[_ ->] | (tok & Ht & ->)];
    simpl; intros H.
  - destruct H as [<-|[<-|[]]]; [left; reflexivity | right; right; reflexivity].
  - destruct H as [<-|[<-|H]];
      [left; reflexivity | right; left; exists tok; auto
      | right; right; exact (send_tail_console _ _ _ H)].
Qed.

Lemma sendTelegramMessage_quiet (BOT_TOKEN : option string)
    (fetch : fetch_request -> fetch_result) (c m : string) (p : option parse_mode) (e : event) :
  In e (snd (sendTelegramMessage BOT_TOKEN fetch c m p)) -> quiet e = true.
Proof.
  intros H. destruct (sendTelegramMessage_events _ _ _ _ _ _ H) as [-> | [(tok & _ & ->) | Hc]];
    [reflexivity | reflexivity | apply console_quiet; exact Hc].
Qed.

Lemma sendTelegramMessage_true (BOT_TOKEN : option string)
    (fetch : fetch_request -> fetch_result) (c m : string) (p : option parse_mode) :
  fst (sendTelegramMessage BOT_TOKEN fetch c m p) = Ok true ->
  exists token status statusText resp,
    truthy BOT_TOKEN = Some token /\
    In (EvFetch (telegram_request token c m p)) (snd (sendTelegramMessage BOT_TOKEN fetch c m p)) /\
    fetch (telegram_request token c m p) = HttpResponse status statusText (inl resp) /\
    200 <= status <= 299 /\ ok resp = true.
Proof.
  destruct (sendTelegramMessage_cases BOT_TOKEN fetch c m p) as [[_ ->] | (tok & Ht & ->)];
    simpl; [discriminate|].
  unfold send_tail. cbv zeta. intros H.
  destruct (fetch (telegram_request tok c m p)) as [err | status st [resp|err]] eqn:Hf;
    simpl in H; [discriminate H| |destruct (negb (response_ok status)); discriminate H].
  destruct (response_ok status) eqn:Hs; simpl in H; [|discriminate H].
  destruct (ok resp) eqn:Hr; simpl in H; [|discriminate H].
  exists tok, status, st, resp. apply response_ok_spec in Hs.
  split; [exact Ht | split; [right; left; reflexivity | auto]].
Qed.

(** For any property [f] of outbound events that one dispatch meets at
    most once, a run of [sendTelegramMessage] meets it at most once. *)
Lemma sendTelegramMessage_filter_le1 (f : event -> bool) :
  (forall e, f e = true -> is_outbound e = true) ->
  (forall c m p r, (List.length (filter f [EvSendTelegramMessage c m p; EvFetch r]) <= 1)%nat) ->
  (forall c m p, (List.length (filter f [EvSendTelegramMessage c m p]) <= 1)%nat) ->
  forall BOT_TOKEN fetch c m p,
  (List.length (filter f (snd (sendTelegramMessage BOT_TOKEN fetch c m p))) <= 1)%nat.
Proof.
  intros Hf H2 H1 BOT_TOKEN fetch c m p.
  assert (Hc : forall e, is_console e = true -> f e = false).
  { intros e He. destruct (f e) eqn:E; [|reflexivity]. apply Hf in E.
    destruct e; discriminate. }
  destruct (sendTelegramMessage_cases BOT_TOKEN fetch c m p) as [[_ ->] | (tok & _ & ->)];
    simpl snd.
  - change [EvSendTelegramMessage c m p; EvConsole LevelError
              [CStr "Error: TELEGRAM_BOT_TOKEN environment variable not set."]]
      with (app [EvSendTelegramMessage c m p]
              [EvConsole LevelError [CStr "Error: TELEGRAM_BOT_TOKEN environment variable not set."]]).
    rewrite filter_app, (filter_none f [EvConsole _ _]), app_nil_r; [apply H1|].
    intros x [<-|[]]. apply Hc. reflexivity.
  - change (EvSendTelegramMessage c m p :: EvFetch (telegram_request tok c m p) :: ?t)
      with (app [EvSendTelegramMessage c m p; EvFetch (telegram_request tok c m p)] t).
    rewrite filter_app, (filter_none f (snd _)), app_nil_r; [apply H2|].
    intros x Hx. apply Hc. exact (send_tail_console _ _ _ Hx).
Qed.


(** ** Helpers on the signature check *)

Lemma utf8_decode_first_char (c : ascii) (r : bytes) :
  utf8_decode_first (app (utf8_of_char c) r) = Some (c, r).
Proof.
  destruct c as [[] [] [] [] [] [] [] []]; reflexivity.
Qed.

Lemma utf8_of_char_nonempty (c : ascii) : utf8_of_char c <> [].
Proof. destruct c as [[] [] [] [] [] [] [] []]; discriminate. Qed.

Lemma buffer_from_inj (a b : string) : buffer_from a = buffer_from b -> a = b.
Proof.
  revert b. induction a as [|ca a IH]; intros b H; destruct b as [|cb b]; simpl in H.
  - reflexivity.
  - destruct (utf8_of_char cb) eqn:E; [apply utf8_of_char_nonempty in E|]; easy.
  - destruct (utf8_of_char ca) eqn:E; [apply utf8_of_char_nonempty in E|]; easy.
  - pose proof (utf8_decode_first_char ca (buffer_from a)) as Ha.
    rewrite H, utf8_decode_first_char in Ha. injection Ha as <- Hr.
    rewrite (IH b (eq_sym Hr)). reflexivity.
Qed.

(** A passed check means the header is the revision's expected value. *)
Lemma verify_passes (rev : revision) (env : Env) (s h : string) (b : bytes) :
  fst (verify_signature rev env s h b) = Ok None -> h = expected_signature rev env s b.
Proof.
  rewrite verify_signature_eq. cbv zeta.
  destruct (Nat.eqb _ _); [|destruct rev; discriminate].
  destruct (bytes_eqb _ _) eqn:E; [|discriminate].
  intros _. apply buffer_from_inj, bytes_eqb_true, E.
Qed.

(** What a check that does not pass gives. *)
Lemma verify_outcomes (rev : revision) (env : Env) (s h : string) (b : bytes) :
  match fst (verify_signature rev env s h b) with
  | Ok None => True
  | Ok (Some o) => o = Respond 401 None "Invalid signature due to length mismatch."
                   \/ o = Respond 401 None "Invalid signature."
  | Throw e => rev = Rev1 /\ e = range_error /\
               List.length (buffer_from h)
               <> List.length (buffer_from (expected_signature rev env s b))
  end.
Proof.
  rewrite verify_signature_eq. cbv zeta.
  destruct (Nat.eqb _ _) eqn:E.
  - destruct (bytes_eqb _ _); simpl; [exact I | right; reflexivity].
  - apply Nat.eqb_neq in E. destruct rev; simpl; [| left | left]; auto.
Qed.

Lemma bytes_eqb_app_l (p x y : bytes) : bytes_eqb (app p x) (app p y) = bytes_eqb x y.
Proof.
  destruct (bytes_eqb x y) eqn:E.
  - apply bytes_eqb_true in E. subst. apply bytes_eqb_refl.
  - destruct (bytes_eqb (app p x) (app p y)) eqn:F; [|reflexivity].
    apply bytes_eqb_true, app_inv_head in F. subst. rewrite bytes_eqb_refl in E.
    discriminate.
Qed.

(** The prefixed check of lines 274-379 on ["sha1=" ++ h] decides as the
    bare check of lines 135-243 on [h]. *)
Lemma verify_rev3_prefixed (env : Env) (s h : string) (b : bytes) :
  fst (verify_signature Rev3 env s ("sha1=" ++ h) b) = fst (verify_signature Rev2 env s h b).
Proof.
  rewrite !verify_signature_eq. cbv zeta.
  change (expected_signature Rev3 env s b) with ("sha1=" ++ hmac_sha1_hex env s b).
  change (expected_signature Rev2 env s b) with (hmac_sha1_hex env s b).
  rewrite !sha1_prefix_length.
  change (5 + List.length (buffer_from h) =? 5 + List.length (buffer_from (hmac_sha1_hex env s b)))%nat
    with (List.length (buffer_from h) =? List.length (buffer_from (hmac_sha1_hex env s b)))%nat.
  destruct (Nat.eqb _ _); [|reflexivity].
  rewrite !buffer_from_append, bytes_eqb_app_l. reflexivity.
Qed.


(** ** Helpers: every run of the handler, case by case *)

Lemma verify_signature_events (rev : revision) (env : Env) (s h : string) (b : bytes) (e : event) :
  In e (snd (verify_signature rev env s h b)) -> is_verify_event e || is_console e = true.
Proof.
  rewrite verify_signature_eq. cbv zeta.
  destruct (Nat.eqb _ _); [|destruct rev]; cbn [snd]; intros Hin.
  - destruct Hin as [<-|Hin]; [reflexivity|].
    apply in_app_or in Hin as [Hin|[<-|Hin]].
    + rewrite (in_console_map _ _ _ Hin), orb_true_r. reflexivity.
    + reflexivity.
    + rewrite (verdict_events_console _ _ _ Hin), orb_true_r. reflexivity.
  - destruct Hin as [<-|[<-|[]]]; reflexivity.
  - destruct Hin as [<-|Hin]; [reflexivity|].
    apply in_app_or in Hin as [Hin|[<-|[]]];
      [rewrite (in_console_map _ _ _ Hin), orb_true_r | ]; reflexivity.
  - destruct Hin as [<-|Hin]; [reflexivity|].
    apply in_app_or in Hin as [Hin|[<-|[]]];
      [rewrite (in_console_map _ _ _ Hin), orb_true_r | ]; reflexivity.
Qed.

Lemma verify_signature_quiet (rev : revision) (env : Env) (s h : string) (b : bytes) (e : event) :
  In e (snd (verify_signature rev env s h b)) -> is_json_parse e || is_outbound e = false.
Proof.
  intros H. apply verify_signature_events in H. destruct e; easy.
Qed.

(** The tail after verification, case by case. *)
Lemma process_verified_cases (rev : revision) (env : Env) (b : bytes) :
  (json_parse env b = None /\
   process_verified rev env b
   = (Ok (Respond 400 None "Invalid JSON payload."),
      [EvJsonParse b;
       EvConsole LevelError [CStr (json_error_label rev); CError (json_error env b)]]))
  \/ exists w, json_parse env b = Some w /\
     ((truthy (TELEGRAM_TARGET_CHAT_ID env) = None /\
       process_verified rev env b
       = (Ok (Respond 200 None "Webhook received, but Telegram chat ID not configured."),
          [EvJsonParse b; EvConsole LevelLog (parsed_log rev w);
           EvConsole LevelError [CStr "TELEGRAM_TARGET_CHAT_ID environment variable not set."]]))
      \/ exists c sent,
         truthy (TELEGRAM_TARGET_CHAT_ID env) = Some c /\
         fst (sendTelegramMessage (TELEGRAM_BOT_TOKEN env) (remote env) c
                (fst (formatVercelMessageForTelegram (to_locale_string env) w))
                (Some MarkdownV2)) = Ok sent /\
         process_verified rev env b
         = (Ok (if sent then Respond 200 None "Notification sent to Telegram."
                else Respond 500 None "Failed to send Telegram notification."),
            EvJsonParse b :: EvConsole LevelLog (parsed_log rev w)
            :: app (map (EvConsole LevelLog)
                        (snd (formatVercelMessageForTelegram (to_locale_string env) w)))
                   (snd (sendTelegramMessage (TELEGRAM_BOT_TOKEN env) (remote env) c
                           (fst (formatVercelMessageForTelegram (to_locale_string env) w))
                           (Some MarkdownV2))))).
Proof.
  rewrite process_verified_eq.
  destruct (json_parse env b) as [w|]; [right; exists w; split; [reflexivity|] | left; auto].
  destruct (truthy (TELEGRAM_TARGET_CHAT_ID env)) as [c|]; [right | left; auto].
  destruct (formatVercelMessageForTelegram (to_locale_string env) w) as [msg logs].
  destruct (sendTelegramMessage_shape (TELEGRAM_BOT_TOKEN env) (remote env) c msg (Some MarkdownV2))
    as [sent [rest Hs]].
  exists c, sent. simpl. rewrite Hs. split; [reflexivity | split; [reflexivity|]].
  destruct sent; reflexivity.
Qed.

Lemma process_verified_trace (rev : revision) (env : Env) (b : bytes) :
  exists R, snd (process_verified rev env b) = EvJsonParse b :: R /\
            forall e, In e R -> quiet e = true.
Proof.
  destruct (process_verified_cases rev env b)
    as [[_ Hp] | (w & _ & [[_ Hp] | (c & sent & _ & _ & Hp)])]; rewrite Hp; eexists;
    (split; [reflexivity|]); intros e He.
  - destruct He as [<-|[]]. reflexivity.
  - destruct He as [<-|[<-|[]]]; reflexivity.
  - destruct He as [<-|He]; [reflexivity|].
    apply in_app_or in He as [He|He].
    + apply console_quiet. exact (in_console_map _ _ _ He).
    + exact (sendTelegramMessage_quiet _ _ _ _ _ _ He).
Qed.

(** The outcome of the tail does not depend on the revision. *)
Lemma process_verified_fst (rev rev' : revision) (env : Env) (b : bytes) :
  fst (process_verified rev env b) = fst (process_verified rev' env b).
Proof.
  rewrite !process_verified_eq.
  destruct (json_parse env b) as [w|]; [|reflexivity].
  destruct (truthy (TELEGRAM_TARGET_CHAT_ID env)) as [c|]; [|reflexivity].
  destruct (formatVercelMessageForTelegram (to_locale_string env) w) as [msg logs].
  destruct (sendTelegramMessage _ _ _ _ _) as [r st]. reflexivity.
Qed.

(** The revisions at lines 28-103 and 274-379 share their tail. *)
Lemma process_verified_rev13 (env : Env) (b : bytes) :
  process_verified Rev3 env b = process_verified Rev1 env b.
Proof. reflexivity. Qed.

Lemma process_verified_responses (rev : revision) (env : Env) (b : bytes) (o : outcome) :
  fst (process_verified rev env b) = Ok o -> In o handler_responses.
Proof.
  destruct (process_verified_cases rev env b)
    as [[_ Hp] | (w & _ & [[_ Hp] | (c & sent & _ & _ & Hp)])];
    rewrite Hp; simpl; intros H; injection H as <-; [| | destruct sent]; in_list.
Qed.

Lemma headers_quiet (rev : revision) (req : Request) (l : list event) :
  (forall e, In e l -> is_json_parse e || is_outbound e = false) ->
  forall e, In e (app (headers_events rev req) l) -> is_json_parse e || is_outbound e = false.
Proof.
  intros Hl e He. apply in_app_or in He as [He|He]; [|exact (Hl e He)].
  apply headers_events_console in He. destruct e; easy.
Qed.

Ltac quiet_tail :=
  let e := fresh "e" in let He := fresh "He" in
  intros e He; simpl in He; split_in He; subst; solve [reflexivity | contradiction].

(** Every run of a handler revision either stops before [JSON.parse]
    (with a response of [handler_responses], or the [RangeError] of the
    revision at lines 28-103), or passes the check and runs the tail. *)
Lemma handler_cases (rev : revision) (env : Env) (req : Request) :
  ((forall e, In e (snd (serve (handler rev env req))) ->
              is_json_parse e || is_outbound e = false) /\
   (In (fst (serve (handler rev env req))) handler_responses \/
    (rev = Rev1 /\ fst (serve (handler rev env req)) = Unhandled range_error /\
     exists s h b, truthy (VERCEL_WEBHOOK_SECRET env) = Some s /\
       truthy (x_vercel_signature req) = Some h /\ raw_body req = Some b /\
       List.length (buffer_from h)
       <> List.length (buffer_from (expected_signature rev env s b)))))
  \/ exists s h b o,
       method req = "POST" /\
       truthy (VERCEL_WEBHOOK_SECRET env) = Some s /\
       truthy (x_vercel_signature req) = Some h /\ raw_body req = Some b /\
       fst (verify_signature rev env s h b) = Ok None /\
       fst (process_verified rev env b) = Ok o /\
       serve (handler rev env req)
       = (o, app (headers_events rev req)
               (EvReadBody :: app (snd (verify_signature rev env s h b))
                                  (snd (process_verified rev env b)))).
Proof.
  rewrite handler_eq. cbv zeta.
  destruct (String.eqb_spec (method req) "POST") as [Em|Em]; simpl negb.
  2:{ left. split; [|left; in_list].
      intros e He. apply headers_events_console in He. destruct e; easy. }
  destruct (truthy (VERCEL_WEBHOOK_SECRET env)) as [s|] eqn:Hs;
    [| left; split; [apply headers_quiet; quiet_tail | left; in_list]].
  destruct (truthy (x_vercel_signature req)) as [h|] eqn:Hh;
    [| left; split; [apply headers_quiet; quiet_tail | left; in_list]].
  destruct (raw_body req) as [b|] eqn:Hb;
    [| left; split; [apply headers_quiet; quiet_tail | left; in_list]].
  pose proof (verify_outcomes rev env s h b) as Ho.
  pose proof (verify_signature_quiet rev env s h b) as Hl.
  destruct (verify_signature rev env s h b) as [r vt] eqn:Ev. simpl in Ho, Hl.
  assert (Hvt : forall e, In e (EvReadBody :: vt) -> is_json_parse e || is_outbound e = false).
  { intros e [<-|He]; [reflexivity|]. exact (Hl e He). }
  destruct r as [[o|]|ex].
  - left. split; [apply headers_quiet; exact Hvt|]. left. destruct Ho as [-> | ->]; in_list.
  - right. exists s, h, b.
    destruct (process_verified_cases rev env b)
      as [[_ Hp] | (w & _ & [[_ Hp] | (c & sent & _ & _ & Hp)])];
      rewrite Hp; eexists; repeat split; rewrite ?Ev; try reflexivity; assumption.
  - left. split; [apply headers_quiet; exact Hvt|]. right. destruct Ho as (-> & -> & Hlen).
    split; [reflexivity | split; [reflexivity|]]. exists s, h, b. repeat split; assumption.
Qed.

(** An outbound event of a handler revision comes from the one call of
    [sendTelegramMessage] on the parsed event. *)
Lemma handler_outbound_events (rev : revision) (env : Env) (req : Request) (e : event) :
  In e (snd (serve (handler rev env req))) -> is_outbound e = true ->
  exists b w c, raw_body req = Some b /\ json_parse env b = Some w /\
    truthy (TELEGRAM_TARGET_CHAT_ID env) = Some c /\
    In e (snd (sendTelegramMessage (TELEGRAM_BOT_TOKEN env) (remote env) c
                 (fst (formatVercelMessageForTelegram (to_locale_string env) w))
                 (Some MarkdownV2))).
Proof.
  intros Hin He.
  destruct (handler_cases rev env req)
    as [[Hno _] | (s & h & b & o & _ & _ & _ & Hb & _ & _ & Hrun)].
  - specialize (Hno e Hin). rewrite He, orb_true_r in Hno. discriminate.
  - rewrite Hrun in Hin. simpl in Hin. apply in_app_or in Hin as [H|H].
    { apply headers_events_console in H. destruct e; discriminate. }
    destruct H as [<-|H]; [discriminate He|].
    apply in_app_or in H as [H|H];
      [apply verify_signature_quiet in H; rewrite He, orb_true_r in H; discriminate H|].
    destruct (process_verified_cases rev env b)
      as [[_ Hp] | (w & Hw & [[_ Hp] | (c & sent & Hc & Hsent & Hp)])];
      rewrite Hp in H; simpl in H; split_in H; subst; try discriminate He; try contradiction.
    apply in_app_or in H as [H|H];
      [apply in_console_map in H; destruct e; discriminate|].
    exists b, w, c. auto.
Qed.

(** The host's body parser of part_000, in one equation. *)
Lemma framework_body_eq (env : Env) (req : Request) :
  framework_body env req
  = match raw_body req with
    | None => (Throw (body_error req), [EvReadBody])
    | Some b => (if framework_ok env req b then Ok tt else Throw "Invalid JSON",
                 framework_events req b)
    end.
Proof.
  unfold framework_body, framework_ok, framework_events.
  destruct (raw_body req) as [b|]; [|reflexivity].
  destruct (is_json_type (content_type req)); [|reflexivity].
  destruct b as [|x l]; [reflexivity|].
  destruct (json_parse env (x :: l)); reflexivity.
Qed.

Lemma framework_events_in (req : Request) (b : bytes) (e : event) :
  In e (framework_events req b) -> e = EvReadBody \/ e = EvFrameworkJsonParse b.
Proof.
  unfold framework_events. destruct_matches; simpl; intros H; split_in H;
    subst; auto; contradiction.
Qed.

Lemma framework_ok_true (env : Env) (req : Request) (b : bytes) :
  framework_ok env req b = true ->
  is_json_type (content_type req) = true -> b <> [] -> exists w, json_parse env b = Some w.
Proof.
  unfold framework_ok. intros H Hj Hb. rewrite Hj in H.
  destruct b as [|x l]; [contradiction|].
  destruct (json_parse env (x :: l)) as [w|]; [exists w; reflexivity | discriminate].
Qed.

Lemma framework_ok_false (env : Env) (req : Request) (b : bytes) :
  framework_ok env req b = false ->
  is_json_type (content_type req) = true /\ b <> [] /\ json_parse env b = None /\
  framework_events req b = [EvReadBody; EvFrameworkJsonParse b].
Proof.
  unfold framework_ok, framework_events.
  destruct (is_json_type (content_type req)); [|discriminate].
  destruct b as [|x l]; [discriminate|].
  destruct (json_parse env (x :: l)); [discriminate|].
  intros _. split; [reflexivity | split; [discriminate | split; reflexivity]].
Qed.

(** Every run of the handler of part_000, case by case. *)
Lemma part000_cases (env : Env) (req : Request) :
  (method req <> "POST" /\
   serve (handler_part000 env req) = (Respond 405 (Some "POST") "Method Not Allowed", []))
  \/ (method req = "POST" /\ raw_body req = None /\
      serve (handler_part000 env req)
      = (Respond 500 None "Internal Server Error",
         [EvReadBody; EvConsole LevelError [CStr "Error processing Vercel webhook:";
                                            CError (body_error req)]]))
  \/ exists b, method req = "POST" /\ raw_body req = Some b /\
     ((framework_ok env req b = false /\
       serve (handler_part000 env req)
       = (Respond 500 None "Internal Server Error",
          app (framework_events req b)
              [EvConsole LevelError [CStr "Error processing Vercel webhook:"; CError "Invalid JSON"]]))
      \/ (framework_ok env req b = true /\
          ((truthy (TELEGRAM_TARGET_CHAT_ID env) = None /\
            serve (handler_part000 env req)
            = (Respond 200 None "Webhook received, but Telegram chat ID not configured.",
               framework_events req b))
           \/ exists c sent,
              truthy (TELEGRAM_TARGET_CHAT_ID env) = Some c /\
              fst (sendTelegramMessage (TELEGRAM_BOT_TOKEN env) (remote env) c
                     "Your formatted message from Vercel payload" (Some MarkdownV2)) = Ok sent /\
              serve (handler_part000 env req)
              = (if sent then Respond 200 None "Notification sent to Telegram."
                 else Respond 500 None "Failed to send Telegram notification.",
                 app (framework_events req b)
                     (snd (sendTelegramMessage (TELEGRAM_BOT_TOKEN env) (remote env) c
                             "Your formatted message from Vercel payload" (Some MarkdownV2))))))).
Proof.
  unfold handler_part000.
  destruct (String.eqb_spec (method req) "POST") as [Em|Em]; simpl negb;
    [| left; split; [exact Em | reflexivity]].
  right. rewrite framework_body_eq.
  destruct (raw_body req) as [b|] eqn:Hb; [| left; split; [exact Em | split; reflexivity]].
  right. exists b. split; [exact Em | split; [reflexivity|]].
  destruct (framework_ok env req b) eqn:Hok; [right | left; split; reflexivity].
  split; [reflexivity|].
  destruct (truthy (TELEGRAM_TARGET_CHAT_ID env)) as [c|];
    [right | left; split; [reflexivity | simpl; rewrite app_nil_r; reflexivity]].
  exists c.
  destruct (sendTelegramMessage_shape (TELEGRAM_BOT_TOKEN env) (remote env) c
              "Your formatted message from Vercel payload" (Some MarkdownV2)) as [sent [rest Hs]].
  exists sent. rewrite Hs. split; [reflexivity | split; [reflexivity|]].
  destruct sent; simpl; rewrite ?app_nil_r; reflexivity.
Qed.

(** An outbound event of the handler of part_000 comes from its one call
    of [sendTelegramMessage], made after the host accepted the body. *)
Lemma part000_outbound_events (env : Env) (req : Request) (e : event) :
  In e (snd (serve (handler_part000 env req))) -> is_outbound e = true ->
  exists b c sent, raw_body req = Some b /\ framework_ok env req b = true /\
    truthy (TELEGRAM_TARGET_CHAT_ID env) = Some c /\
    fst (sendTelegramMessage (TELEGRAM_BOT_TOKEN env) (remote env) c
           "Your formatted message from Vercel payload" (Some MarkdownV2)) = Ok sent /\
    In e (snd (sendTelegramMessage (TELEGRAM_BOT_TOKEN env) (remote env) c
                 "Your formatted message from Vercel payload" (Some MarkdownV2))) /\
    fst (serve (handler_part000 env req))
    = (if sent then Respond 200 None "Notification sent to Telegram."
       else Respond 500 None "Failed to send Telegram notification.").
Proof.
  intros Hin He.
  destruct (part000_cases env req)
    as [[_ Hr] | [(_ & _ & Hr) | (b & _ & Hb & [[_ Hr] | [Hok [[_ Hr] | (c & sent & Hc & Hs & Hr)]]])]];
    rewrite Hr in Hin |- *; simpl in Hin.
  - contradiction.
  - split_in Hin; subst; try discriminate He; contradiction.
  - apply in_app_or in Hin as [H|H].
    + destruct (framework_events_in _ _ _ H) as [-> | ->]; discriminate He.
    + destruct H as [<-|[]]. discriminate He.
  - destruct (framework_events_in _ _ _ Hin) as [-> | ->]; discriminate He.
  - apply in_app_or in Hin as [H|H].
    + destruct (framework_events_in _ _ _ H) as [-> | ->]; discriminate He.
    + exists b, c, sent. repeat split; assumption || reflexivity.
Qed.

(** The handler of part_000 never touches the signature. *)
Lemma part000_no_verify (env : Env) (req : Request) (e : event) :
  In e (snd (serve (handler_part000 env req))) -> is_verify_event e = false.
Proof.
  intros Hin.
  destruct (part000_cases env req)
    as [[_ Hr] | [(_ & _ & Hr) | (b & _ & Hb & [[_ Hr] | [Hok [[_ Hr] | (c & sent & Hc & Hs & Hr)]]])]];
    rewrite Hr in Hin; simpl in Hin.
  - contradiction.
  - split_in Hin; subst; reflexivity || contradiction.
  - apply in_app_or in Hin as [H|H].
    + destruct (framework_events_in _ _ _ H) as [-> | ->]; reflexivity.
    + destruct H as [<-|[]]. reflexivity.
  - destruct (framework_events_in _ _ _ Hin) as [-> | ->]; reflexivity.
  - apply in_app_or in Hin as [H|H].
    + destruct (framework_events_in _ _ _ H) as [-> | ->]; reflexivity.
    + apply sendTelegramMessage_quiet in H. destruct e; easy.
Qed.

(** ** Ordering of parsing and verification *)

Lemma no_json_parse_split (tr pre post : list event) (d : bytes) :
  (forall e, In e tr -> is_json_parse e = false) ->
  tr = app pre (EvJsonParse d :: post) -> False.
Proof.
  intros Hno ->. specialize (Hno (EvJsonParse d) (in_elt _ _ _)).
  discriminate.
Qed.

Lemma json_parse_split (P R pre post : list event) (x d : bytes) :
  (forall e, In e P -> is_json_parse e = false) ->
  (forall e, In e R -> is_json_parse e = false) ->
  app P (EvJsonParse x :: R) = app pre (EvJsonParse d :: post) -> pre = P /\ d = x.
Proof.
  revert pre. induction P as [|e P IH]; intros pre HP HR Heq.
  - destruct pre as [|e pre]; simpl in Heq.
    + injection Heq as -> _. split; reflexivity.
    + injection Heq as <- Hrest. exfalso.
      apply (no_json_parse_split R pre post d HR Hrest).
  - destruct pre as [|e' pre]; simpl in Heq.
    + injection Heq as -> _. specialize (HP (EvJsonParse d) (or_introl eq_refl)).
      discriminate.
    + injection Heq as <- Hrest.
      destruct (IH pre (fun e0 H0 => HP e0 (or_intror H0)) HR Hrest) as [-> ->].
      split; reflexivity.
Qed.

Lemma benign_json_parse (req : Request) (l : list event) (e : event) :
  Forall (benign req) l -> In e l -> is_json_parse e = false.
Proof.
  intros Hl He. apply parse_free_json. exact (proj1 (proj1 (Forall_forall _ _) Hl e He)).
Qed.

Lemma benign_framework (req : Request) (l : list event) (d : bytes) :
  Forall (benign req) l -> ~ In (EvFrameworkJsonParse d) l.
Proof. intros Hl He. pose proof (proj1 (proj1 (Forall_forall _ _) Hl _ He)). discriminate. Qed.

Lemma benign_hmac (req : Request) (l : list event) (k : string) (d : bytes) :
  Forall (benign req) l -> In (EvHmacSha1 k d) l -> raw_body req = Some d.
Proof. intros Hl He. exact (proj2 (proj1 (Forall_forall _ _) Hl _ He) k d eq_refl). Qed.

(** Every run of a handler revision either never parses the body, or
    parses the raw body once, after [timingSafeEqual] compared two equal
    buffers; every HMAC is taken over the raw body. *)
Lemma handler_trace_parse (rev : revision) (env : Env) (req : Request) :
  Forall (benign req) (snd (serve (handler rev env req)))
  \/ exists P R b a,
       snd (serve (handler rev env req)) = app P (EvJsonParse b :: R) /\
       raw_body req = Some b /\ In (EvTimingSafeEqual a a) P /\
       Forall (benign req) P /\ Forall (benign req) R.
Proof.
  rewrite snd_serve, handler_eq. cbv zeta.
  destruct (negb _); [left; cbn [snd]; benign_list|].
  destruct (truthy (VERCEL_WEBHOOK_SECRET env)) as [s|]; [|left; cbn [snd]; benign_list].
  destruct (truthy (x_vercel_signature req)) as [h|]; [|left; cbn [snd]; benign_list].
  destruct (raw_body req) as [b|] eqn:Hb; [|left; cbn [snd]; benign_list].
  rewrite verify_signature_eq. cbv zeta.
  destruct (Nat.eqb _ _).
  - destruct (bytes_eqb (buffer_from h) (buffer_from (expected_signature rev env s b))) eqn:He.
    + pose proof He as He'. apply bytes_eqb_true in He'. rewrite <- He'.
      destruct (process_verified_trace rev env b) as [R [Hp HR]].
      destruct (process_verified rev env b) as [r2 pt]. cbn [snd] in Hp. subst pt.
      right. cbn [snd].
      exists (app (headers_events rev req)
                (EvReadBody :: EvHmacSha1 s b
                  :: app (map (EvConsole LevelLog) (debug_logs rev h (expected_signature rev env s b)))
                         (EvTimingSafeEqual (buffer_from h) (buffer_from h) :: verdict_events rev true))),
             R, b, (buffer_from h).
      split; [rewrite <- !app_assoc; reflexivity|].
      split; [reflexivity|]. split; [in_trace|]. split.
      * benign_list.
      * apply Forall_forall. intros e Hin. apply quiet_benign, HR, Hin.
    + left. cbn [snd]. benign_list.
  - destruct rev; left; cbn [snd]; benign_list.
Qed.

(** C3, as the code has it.  In each revision of the handler of
    src/api/vercel-notifications-to-telegram.ts (whose module disables the
    host's body parser): the host never parses the body, every HMAC is
    computed over the raw body bytes, and [JSON.parse] runs only on the raw
    body and only after [timingSafeEqual] has compared two equal buffers.
    The handler of part_000 keeps the host's parser: it never computes an
    HMAC nor calls [timingSafeEqual]. *)
Theorem handler_parses_after_verification :
  (forall (rev : revision) (env : Env) (req : Request),
     let tr := snd (serve (handler rev env req)) in
     (forall d, ~ In (EvFrameworkJsonParse d) tr)
     /\ (forall k d, In (EvHmacSha1 k d) tr -> raw_body req = Some d)
     /\ (forall pre d post, tr = app pre (EvJsonParse d :: post) ->
           raw_body req = Some d /\ exists a, In (EvTimingSafeEqual a a) pre))
  /\ (forall (env : Env) (req : Request),
        let tr := snd (serve (handler_part000 env req)) in
        (forall a b, ~ In (EvTimingSafeEqual a b) tr)
        /\ (forall k d, ~ In (EvHmacSha1 k d) tr)).
Proof.
  split.
  - intros rev env req tr. subst tr.
    destruct (handler_trace_parse rev env req) as [Hall | (P & R & b & a & Htr & Hb & Ha & HP & HR)].
    + split; [|split].
      * intros d. apply (benign_framework req), Hall.
      * intros k d. apply (benign_hmac req), Hall.
      * intros pre d post Htr. exfalso.
        exact (no_json_parse_split _ _ _ _ (fun e => benign_json_parse req _ e Hall) Htr).
    + rewrite Htr. split; [|split].
      * intros d Hin. apply in_app_or in Hin as [Hin|[Hin|Hin]];
          [exact (benign_framework req P d HP Hin) | discriminate Hin
          | exact (benign_framework req R d HR Hin)].
      * intros k d Hin. apply in_app_or in Hin as [Hin|[Hin|Hin]];
          [exact (benign_hmac req P k d HP Hin) | discriminate Hin
          | exact (benign_hmac req R k d HR Hin)].
      * intros pre d post Htr'.
        destruct (json_parse_split P R pre post b d
                    (fun e => benign_json_parse req P e HP)
                    (fun e => benign_json_parse req R e HR) Htr') as [-> ->].
        split; [exact Hb | exists a; exact Ha].
  - intros env req tr. subst tr. split.
    + intros a b Hin. apply part000_no_verify in Hin. discriminate.
    + intros k d Hin. apply part000_no_verify in Hin. discriminate.
Qed.

(** C3, counterexample: the handler of part_000 parses the body as JSON
    although no signature was ever checked. *)
Lemma part000_parses_unverified :
  let tr := snd (serve (handler_part000 env_demo (post_request "forged" body_c8))) in
  In (EvFrameworkJsonParse body_c8) tr
  /\ (forall a b, ~ In (EvTimingSafeEqual a b) tr)
  /\ In (EvSendTelegramMessage "42" "Your formatted message from Vercel payload" (Some MarkdownV2)) tr.
Proof.
  vm_compute. split; [right; left; reflexivity|]. split.
  - intros a b H. repeat destruct H as [H|H]; try discriminate; contradiction.
  - right; right; left. reflexivity.
Qed.

(** ** The formatter's effects *)

(** C4, counterexample: for an unrecognised type the formatter writes to
    the console, and the same event gives different texts on hosts with
    different locales. *)
Lemma formatter_logs_and_depends_on_locale :
  snd (formatVercelMessageForTelegram locale_en_us (bare_event "team.updated"))
    = [[CStr "Unhandled Vercel event type:"; CStr "team.updated";
        CStringifyPayload (payload (bare_event "team.updated"))]]
  /\ fst (formatVercelMessageForTelegram locale_en_us (bare_event "project.created"))
     <> fst (formatVercelMessageForTelegram locale_de_de (bare_event "project.created")).
Proof. split; [reflexivity | vm_compute; discriminate]. Qed.

Lemma format_logs (loc : Z -> string) (ev : VercelWebhook) :
  snd (formatVercelMessageForTelegram loc ev)
  = if is_known_type (w_type ev) then []
    else [[CStr "Unhandled Vercel event type:"; CStr (w_type ev); CStringifyPayload (payload ev)]].
Proof.
  unfold formatVercelMessageForTelegram, format_message_lines, is_known_type, known_types.
  cbv zeta. simpl existsb.
  destruct (String.eqb (w_type ev) "deployment.created"); [reflexivity|].
  destruct (String.eqb (w_type ev) "deployment.succeeded"); [reflexivity|].
  destruct (String.eqb (w_type ev) "deployment.error"); [reflexivity|].
  destruct (String.eqb (w_type ev) "deployment.canceled"); [reflexivity|].
  destruct (String.eqb (w_type ev) "deployment.promoted"); [reflexivity|].
  destruct (String.eqb (w_type ev) "project.created"); [reflexivity|].
  destruct (String.eqb (w_type ev) "project.removed"); [reflexivity|].
  destruct (String.eqb (w_type ev) "attack.detected"); reflexivity.
Qed.

(** C4, as the code has it: the text is a function of the event and of the
    host's rendering of [createdAt] alone (two hosts that render that
    timestamp alike produce the same text); the formatter makes no
    [console.log] call for the eight recognised types, and for any other
    type exactly one, with the label, the type and
    [JSON.stringify(payload, null, 2)]. *)
Theorem format_deterministic_given_locale (loc1 loc2 : Z -> string) (ev : VercelWebhook) :
  loc1 (createdAt ev) = loc2 (createdAt ev) ->
  fst (formatVercelMessageForTelegram loc1 ev) = fst (formatVercelMessageForTelegram loc2 ev)
  /\ snd (formatVercelMessageForTelegram loc1 ev)
     = (if is_known_type (w_type ev) then []
        else [[CStr "Unhandled Vercel event type:"; CStr (w_type ev);
               CStringifyPayload (payload ev)]]).
Proof.
  intros Hloc. split; [|apply format_logs].
  unfold formatVercelMessageForTelegram, format_message_lines, addCommonDetails.
  cbv zeta. rewrite Hloc. reflexivity.
Qed.

Lemma format_deterministic_given_locale_witness :
  locale_en_us (createdAt (bare_event "team.updated"))
  = locale_en_us (createdAt (bare_event "team.updated"))
  /\ fst (formatVercelMessageForTelegram locale_en_us (bare_event "team.updated"))
     = fst (formatVercelMessageForTelegram locale_en_us (bare_event "team.updated"))
  /\ snd (formatVercelMessageForTelegram locale_en_us (bare_event "team.updated"))
     = (if is_known_type (w_type (bare_event "team.updated")) then []
        else [[CStr "Unhandled Vercel event type:"; CStr (w_type (bare_event "team.updated"));
               CStringifyPayload (payload (bare_event "team.updated"))]]).
Proof.
  split; [reflexivity|].
  apply (format_deterministic_given_locale locale_en_us locale_en_us (bare_event "team.updated")).
  reflexivity.
Defined.

(** ** Shape of the formatted message *)

Lemma append_empty_r (s : string) : s ++ EmptyString = s.
Proof. induction s as [|c s IH]; simpl; [reflexivity|]. rewrite IH. reflexivity. Qed.

Lemma append_assoc_str (a b c : string) : a ++ (b ++ c) = (a ++ b) ++ c.
Proof. induction a as [|x a IH]; simpl; [reflexivity|]. rewrite IH. reflexivity. Qed.

Lemma concat_cons (sep x : string) (l : list string) :
  String.concat sep (x :: l)
  = x ++ match l with [] => EmptyString | _ => sep ++ String.concat sep l end.
Proof. destruct l; simpl; [rewrite append_empty_r|]; reflexivity. Qed.








(** ** The scenario of a successful production deployment *)

Lemma contains_concat (sep sub l : string) (lines : list string) :
  In l lines -> contains sub l -> contains sub (String.concat sep lines).
Proof.
  intros Hin [a [b Hl]]. induction lines as [|x rest IH]; [contradiction|].
  rewrite concat_cons. destruct Hin as [<-|Hin].
  - rewrite Hl. exists a, (b ++ match rest with [] => EmptyString
                                        | _ => sep ++ String.concat sep rest end).
    rewrite <- !append_assoc_str. reflexivity.
  - destruct (IH Hin) as [a' [b' He]].
    destruct rest as [|y r]; [contradiction|].
    exists (x ++ sep ++ a'), b'. rewrite He, <- !append_assoc_str. reflexivity.
Qed.

Lemma format_c8_lines (loc : Z -> string) :
  fst (format_message_lines loc ev_c8)
  = ["✅ *Deployment Succeeded*"; "*Project:* my\-app";
     "*Deployment URL:* [my\-app\.vercel\.app](my\-app\.vercel\.app)";
     "*Time:* " ++ code_span (escapeMarkdown (JSString (loc 1700000000000)));
     "🎯 *Target:* `PRODUCTION`"; "*Domains:* `my\-app\.com`"]
  /\ snd (format_message_lines loc ev_c8) = [].
Proof. split; reflexivity. Qed.

Lemma format_c8 (loc : Z -> string) :
  formatVercelMessageForTelegram loc ev_c8
  = (String.concat (String newline EmptyString) (fst (format_message_lines loc ev_c8)), []).
Proof. reflexivity. Qed.

(** A bot token and a messaging API that accepts every request make
    [sendTelegramMessage] succeed. *)
Lemma sendTelegramMessage_accepted (BOT_TOKEN : option string)
    (fetch : fetch_request -> fetch_result) (c m : string) (p : option parse_mode) :
  truthy BOT_TOKEN <> None ->
  (forall r, exists status statusText resp,
      fetch r = HttpResponse status statusText (inl resp) /\
      200 <= status <= 299 /\ ok resp = true) ->
  exists rest, sendTelegramMessage BOT_TOKEN fetch c m p
               = (Ok true, EvSendTelegramMessage c m p :: rest).
Proof.
  intros Ht Hf.
  destruct (sendTelegramMessage_cases BOT_TOKEN fetch c m p) as [[Hn _] | (tok & _ & ->)];
    [contradiction|].
  destruct (Hf (telegram_request tok c m p)) as (status & st & resp & Hr & Hs & Hok).
  eexists. f_equal. f_equal. rewrite Hr. unfold send_tail. cbv zeta.
  apply response_ok_spec in Hs. rewrite Hs, Hok. reflexivity.
Qed.

(** C8: on a host whose secret, chat id and bot token are set, whose JSON
    parser reads the scenario's body as its [deployment.succeeded] event
    and whose messaging API accepts the message, a POST of that body that
    carries the revision's valid signature is answered 200
    "Notification sent to Telegram.", after the handler called the
    dispatcher with a text containing [Deployment Succeeded], [PRODUCTION]
    and the escaped domain [my\-app\.com]. *)
Theorem scenario_deployment_succeeded (rev : revision) (env : Env) (s c : string) :
  truthy (VERCEL_WEBHOOK_SECRET env) = Some s ->
  truthy (TELEGRAM_TARGET_CHAT_ID env) = Some c ->
  truthy (TELEGRAM_BOT_TOKEN env) <> None ->
  json_parse env body_c8 = Some ev_c8 ->
  hmac_sha1_hex env s body_c8 <> "" ->
  (forall r, exists status statusText resp,
      remote env r = HttpResponse status statusText (inl resp) /\
      200 <= status <= 299 /\ ok resp = true) ->
  fst (serve (handler rev env (post_request (expected_signature rev env s body_c8) body_c8)))
  = Respond 200 None "Notification sent to Telegram."
  /\ exists msg,
       In (EvSendTelegramMessage c msg (Some MarkdownV2))
          (snd (serve (handler rev env (post_request (expected_signature rev env s body_c8) body_c8))))
       /\ contains "Deployment Succeeded" msg
       /\ contains "PRODUCTION" msg
       /\ contains "my\-app\.com" msg.
Proof.
  intros Hs Hc Htok Hj Hh Hremote.
  assert (He : expected_signature rev env s body_c8 <> "")
    by (destruct rev; simpl; [discriminate | exact Hh | discriminate]).
  destruct (sendTelegramMessage_accepted (TELEGRAM_BOT_TOKEN env) (remote env) c
              (String.concat (String newline EmptyString)
                 (fst (format_message_lines (to_locale_string env) ev_c8)))
              (Some MarkdownV2) Htok Hremote) as [rest Hsend].
  assert (Hpv : process_verified rev env body_c8
                = (Ok (Respond 200 None "Notification sent to Telegram."),
                   EvJsonParse body_c8 :: EvConsole LevelLog (parsed_log rev ev_c8)
                   :: app (map (EvConsole LevelLog) [])
                          (EvSendTelegramMessage c
                             (String.concat (String newline EmptyString)
                                (fst (format_message_lines (to_locale_string env) ev_c8)))
                             (Some MarkdownV2) :: rest))).
  { rewrite process_verified_eq, Hj, Hc, format_c8. cbv beta iota. rewrite Hsend. reflexivity. }
  rewrite handler_eq. unfold post_request. cbn [method x_vercel_signature raw_body].
  rewrite String.eqb_refl, Hs, (truthy_nonempty _ He), verify_signature_expected.
  cbv zeta. cbn [negb]. cbv beta iota. rewrite Hpv. cbv beta iota. cbn [serve fst snd].
  split; [reflexivity|].
  exists (String.concat (String newline EmptyString)
            (fst (format_message_lines (to_locale_string env) ev_c8))).
  split; [|split; [|split]].
  - in_trace.
  - apply (contains_concat _ _ "✅ *Deployment Succeeded*").
    + rewrite (proj1 (format_c8_lines _)). left. reflexivity.
    + exists "✅ *", "*". reflexivity.
  - apply (contains_concat _ _ "🎯 *Target:* `PRODUCTION`").
    + rewrite (proj1 (format_c8_lines _)). simpl. right; right; right; right; left. reflexivity.
    + exists "🎯 *Target:* `", "`". reflexivity.
  - apply (contains_concat _ _ "*Domains:* `my\-app\.com`").
    + rewrite (proj1 (format_c8_lines _)). simpl. right; right; right; right; right; left.
      reflexivity.
    + exists "*Domains:* `", "`". reflexivity.
Qed.

Lemma scenario_deployment_succeeded_witness :
  fst (serve (handler Rev2 env_demo
        (post_request (expected_signature Rev2 env_demo "s3cret" body_c8) body_c8)))
  = Respond 200 None "Notification sent to Telegram."
  /\ exists msg,
       In (EvSendTelegramMessage "42" msg (Some MarkdownV2))
          (snd (serve (handler Rev2 env_demo
             (post_request (expected_signature Rev2 env_demo "s3cret" body_c8) body_c8))))
       /\ contains "Deployment Succeeded" msg
       /\ contains "PRODUCTION" msg
       /\ contains "my\-app\.com" msg.
Proof.
  apply (scenario_deployment_succeeded Rev2 env_demo "s3cret" "42");
    [reflexivity | reflexivity | discriminate | vm_compute; reflexivity | discriminate |].
  intros r. exists 200, "OK", telegram_ok.
  split; [reflexivity | split; [lia | reflexivity]].
Defined.

(** ** A missing bot token *)

Lemma process_verified_no_token (rev : revision) (env : Env) (b : bytes) (w : VercelWebhook)
    (c : string) :
  truthy (TELEGRAM_BOT_TOKEN env) = None ->
  json_parse env b = Some w -> truthy (TELEGRAM_TARGET_CHAT_ID env) = Some c ->
  fst (process_verified rev env b) = Ok (Respond 500 None "Failed to send Telegram notification.").
Proof.
  intros Ht Hw Hc.
  destruct (process_verified_cases rev env b)
    as [[Hn _] | (w' & Hw' & [[Hn _] | (c' & sent & Hc' & Hsent & Hp)])];
    [congruence | congruence |].
  rewrite (sendTelegramMessage_untruthy _ _ _ _ _ Ht) in Hsent.
  injection Hsent as <-. rewrite Hp. reflexivity.
Qed.

(** C10: when [TELEGRAM_BOT_TOKEN] is unset (or empty), [sendTelegramMessage]
    completes at once with [false] after one [console.error], without
    throwing and without any outbound request.  Hence in every handler
    revision, and in the handler of part_000, no outbound HTTP request is
    made, and whenever the dispatcher is called the response is the
    ordinary dispatch failure, 500 "Failed to send Telegram notification.". *)
Theorem missing_bot_token_is_dispatch_failure (env : Env) :
  truthy (TELEGRAM_BOT_TOKEN env) = None ->
  (forall fetch c m p,
     sendTelegramMessage (TELEGRAM_BOT_TOKEN env) fetch c m p
     = (Ok false, [EvSendTelegramMessage c m p;
                   EvConsole LevelError [CStr "Error: TELEGRAM_BOT_TOKEN environment variable not set."]]))
  /\ (forall rev req,
        (forall r, ~ In (EvFetch r) (snd (serve (handler rev env req))))
        /\ ((exists c m p, In (EvSendTelegramMessage c m p) (snd (serve (handler rev env req)))) ->
            fst (serve (handler rev env req))
            = Respond 500 None "Failed to send Telegram notification."))
  /\ (forall req,
        (forall r, ~ In (EvFetch r) (snd (serve (handler_part000 env req))))
        /\ ((exists c m p, In (EvSendTelegramMessage c m p) (snd (serve (handler_part000 env req)))) ->
            fst (serve (handler_part000 env req))
            = Respond 500 None "Failed to send Telegram notification.")).
Proof.
  intros Ht.
  assert (Hu : forall fetch c m p,
             sendTelegramMessage (TELEGRAM_BOT_TOKEN env) fetch c m p
             = (Ok false, [EvSendTelegramMessage c m p;
                           EvConsole LevelError
                             [CStr "Error: TELEGRAM_BOT_TOKEN environment variable not set."]]))
    by (intros; apply sendTelegramMessage_untruthy; exact Ht).
  split; [exact Hu | split].
  - intros rev req. split.
    + intros r Hin.
      destruct (handler_outbound_events rev env req _ Hin eq_refl)
        as (b & w & c & _ & _ & _ & Hs).
      rewrite Hu in Hs. destruct Hs as [H|[H|[]]]; discriminate.
    + intros (c & m & p & Hin).
      destruct (handler_outbound_events rev env req _ Hin eq_refl)
        as (b & w & c' & Hb & Hw & Hc & _).
      destruct (handler_cases rev env req)
        as [[Hno _] | (s & h & b' & o & _ & _ & _ & Hb' & _ & Ho & Hrun)].
      * specialize (Hno _ Hin). discriminate.
      * rewrite Hb in Hb'. injection Hb' as <-.
        rewrite (process_verified_no_token rev env b w c' Ht Hw Hc) in Ho.
        injection Ho as <-. rewrite Hrun. reflexivity.
  - intros req. split.
    + intros r Hin.
      destruct (part000_outbound_events env req _ Hin eq_refl)
        as (b & c & sent & _ & _ & _ & _ & Hs & _).
      rewrite Hu in Hs. destruct Hs as [H|[H|[]]]; discriminate.
    + intros (c & m & p & Hin).
      destruct (part000_outbound_events env req _ Hin eq_refl)
        as (b & c' & sent & _ & _ & _ & Hsent & _ & Hr).
      rewrite Hu in Hsent. injection Hsent as <-. exact Hr.
Qed.

Lemma missing_bot_token_is_dispatch_failure_witness :
  ((forall fetch c m p,
      sendTelegramMessage (TELEGRAM_BOT_TOKEN env_no_token) fetch c m p
      = (Ok false, [EvSendTelegramMessage c m p;
                    EvConsole LevelError
                      [CStr "Error: TELEGRAM_BOT_TOKEN environment variable not set."]]))
   /\ (forall rev req,
         (forall r, ~ In (EvFetch r) (snd (serve (handler rev env_no_token req))))
         /\ ((exists c m p,
                In (EvSendTelegramMessage c m p) (snd (serve (handler rev env_no_token req)))) ->
             fst (serve (handler rev env_no_token req))
             = Respond 500 None "Failed to send Telegram notification."))
   /\ (forall req,
         (forall r, ~ In (EvFetch r) (snd (serve (handler_part000 env_no_token req))))
         /\ ((exists c m p,
                In (EvSendTelegramMessage c m p) (snd (serve (handler_part000 env_no_token req)))) ->
             fst (serve (handler_part000 env_no_token req))
             = Respond 500 None "Failed to send Telegram notification.")))
  /\ fst (serve (handler Rev2 env_no_token
        (post_request (expected_signature Rev2 env_no_token "s3cret" body_c8) body_c8)))
     = Respond 500 None "Failed to send Telegram notification.".
Proof.
  split.
  - apply (missing_bot_token_is_dispatch_failure env_no_token). reflexivity.
  - vm_compute. reflexivity.
Defined.

(** ** Further properties of escapeMarkdown *)

Lemma escape_replace_head (t r : string) (c : ascii) :
  escape_replace t = String c r -> is_reserved c = false.
Proof.
  destruct t as [|a t]; simpl; [discriminate|].
  destruct (is_reserved a) eqn:Ea; intros H; injection H as <- _;
    [apply backslash_not_reserved | exact Ea].
Qed.

(** [escapeMarkdown] is injective on strings: two different texts are
    never escaped to the same text. *)
Theorem escapeMarkdown_injective (a b : string) :
  escapeMarkdown (JSString a) = escapeMarkdown (JSString b) -> a = b.
Proof.
  simpl. revert b. induction a as [|ca a IH]; intros b H; destruct b as [|cb b].
  - reflexivity.
  - simpl in H. destruct (is_reserved cb); discriminate.
  - simpl in H. destruct (is_reserved ca); discriminate.
  - simpl in H.
    destruct (is_reserved ca) eqn:Ea, (is_reserved cb) eqn:Eb.
    + injection H as <- Hr. rewrite (IH b Hr). reflexivity.
    + injection H as Hc Hr. symmetry in Hr.
      apply escape_replace_head in Hr. congruence.
    + injection H as Hc Hr.
      apply escape_replace_head in Hr. congruence.
    + injection H as <- Hr. rewrite (IH b Hr). reflexivity.
Qed.

Lemma escapeMarkdown_injective_witness :
  escapeMarkdown (JSString "v1.2_x") = escapeMarkdown (JSString "v1.2_x")
  /\ "v1.2_x" = "v1.2_x".
Proof.
  split; [reflexivity | apply (escapeMarkdown_injective "v1.2_x" "v1.2_x"); reflexivity].
Defined.

(** Escaping distributes over concatenation: the text is escaped one
    character at a time. *)
Theorem escapeMarkdown_append (a b : string) :
  escapeMarkdown (JSString (a ++ b))
  = escapeMarkdown (JSString a) ++ escapeMarkdown (JSString b).
Proof.
  simpl. induction a as [|c a IH]; simpl; [reflexivity|].
  destruct (is_reserved c); rewrite IH; reflexivity.
Qed.

(** Escaping adds exactly one character (a backslash) per reserved
    character of the text. *)
Theorem escapeMarkdown_length (t : string) :
  String.length (escapeMarkdown (JSString t)) = (String.length t + count_reserved t)%nat.
Proof.
  simpl. induction t as [|c t IH]; simpl; [reflexivity|].
  destruct (is_reserved c); simpl; rewrite IH; lia.
Qed.


(** ** Properties of the handler *)

(** The checks before the signature check, in their order: the method,
    the secret, the signature header, the body.  Each failing check answers
    at once, after its one console line; only the body check has consumed
    the body, and none has computed an HMAC.  The revision at lines 135-243
    logs the request headers first, before the method check.  A request
    whose method is not POST gets 405 from every handler, that of part_000
    included, with no other effect than that log. *)
Theorem handler_guard_order (rev : revision) (env : Env) (req : Request) :
  (method req <> "POST" ->
   serve (handler rev env req)
   = (Respond 405 (Some "POST") "Method Not Allowed", headers_events rev req)
   /\ serve (handler_part000 env req) = (Respond 405 (Some "POST") "Method Not Allowed", []))
  /\ (method req = "POST" -> truthy (VERCEL_WEBHOOK_SECRET env) = None ->
      serve (handler rev env req)
      = (Respond 500 None "Internal server configuration error.",
         app (headers_events rev req)
             [EvConsole LevelError [CStr "VERCEL_WEBHOOK_SECRET is not set."]]))
  /\ (method req = "POST" -> truthy (VERCEL_WEBHOOK_SECRET env) <> None ->
      truthy (x_vercel_signature req) = None ->
      serve (handler rev env req)
      = (Respond 401 None "Signature missing.",
         app (headers_events rev req)
             [EvConsole LevelWarn [CStr "Missing x-vercel-signature header."]]))
  /\ (method req = "POST" -> truthy (VERCEL_WEBHOOK_SECRET env) <> None ->
      truthy (x_vercel_signature req) <> None -> raw_body req = None ->
      serve (handler rev env req)
      = (Respond 500 None "Error processing request body.",
         app (headers_events rev req)
             [EvReadBody; EvConsole LevelError [CStr "Error reading raw body:"; CError (body_error req)]])).
Proof.
  rewrite handler_eq. cbv zeta. split; [|split; [|split]].
  - intros Hm. apply String.eqb_neq in Hm. rewrite Hm. split; [reflexivity|].
    unfold handler_part000. rewrite Hm. reflexivity.
  - intros -> Hs. rewrite Hs. reflexivity.
  - intros -> Hs Hh. destruct (truthy (VERCEL_WEBHOOK_SECRET env)); [|congruence].
    rewrite Hh. reflexivity.
  - intros -> Hs Hh Hb. destruct (truthy (VERCEL_WEBHOOK_SECRET env)); [|congruence].
    destruct (truthy (x_vercel_signature req)); [|congruence].
    rewrite Hb. reflexivity.
Qed.

(** Authentication: a handler revision parses a body, or calls the
    dispatcher, or issues a request, only when the signature header is
    exactly the value that revision expects for that body under the
    configured secret. *)
Theorem handler_processes_only_signed_bodies (rev : revision) (env : Env) (req : Request) (e : event) :
  In e (snd (serve (handler rev env req))) ->
  is_json_parse e || is_outbound e = true ->
  exists s b, truthy (VERCEL_WEBHOOK_SECRET env) = Some s /\ raw_body req = Some b /\
    x_vercel_signature req = Some (expected_signature rev env s b).
Proof.
  intros Hin He.
  destruct (handler_cases rev env req) as [[Hno _] | (s & h & b & o & _ & Hs & Hh & Hb & Hv & _)].
  - rewrite (Hno e Hin) in He. discriminate.
  - exists s, b. split; [exact Hs | split; [exact Hb|]].
    rewrite (truthy_some _ _ Hh), (verify_passes _ _ _ _ _ Hv). reflexivity.
Qed.

Lemma handler_processes_only_signed_bodies_witness :
  exists s b, truthy (VERCEL_WEBHOOK_SECRET env_demo) = Some s /\
    raw_body (post_request (hmac_demo "s3cret" body_c8) body_c8) = Some b /\
    x_vercel_signature (post_request (hmac_demo "s3cret" body_c8) body_c8)
    = Some (expected_signature Rev2 env_demo s b).
Proof.
  apply (handler_processes_only_signed_bodies Rev2 env_demo
           (post_request (hmac_demo "s3cret" body_c8) body_c8) (EvJsonParse body_c8)).
  - vm_compute. repeat (first [left; reflexivity | right]).
  - reflexivity.
Defined.

(** The responses: the revisions at lines 135-243 and 274-379 and the
    handler of part_000 always answer, with one of their listed responses;
    the revision at lines 28-103 answers with one of the listed responses
    too, except that it rejects with the [RangeError] of
    [timingSafeEqual] when the signature header and the expected value
    differ in byte length. *)
Theorem handler_response_set (env : Env) (req : Request) :
  In (fst (serve (handler Rev2 env req))) handler_responses
  /\ In (fst (serve (handler Rev3 env req))) handler_responses
  /\ In (fst (serve (handler_part000 env req))) part000_responses
  /\ (In (fst (serve (handler Rev1 env req))) handler_responses
      \/ (fst (serve (handler Rev1 env req)) = Unhandled range_error /\
          exists s h b, truthy (VERCEL_WEBHOOK_SECRET env) = Some s /\
            truthy (x_vercel_signature req) = Some h /\ raw_body req = Some b /\
            List.length (buffer_from h)
            <> List.length (buffer_from (expected_signature Rev1 env s b)))).
Proof.
  assert (Hrev : forall rev,
    In (fst (serve (handler rev env req))) handler_responses
    \/ (rev = Rev1 /\ fst (serve (handler rev env req)) = Unhandled range_error /\
        exists s h b, truthy (VERCEL_WEBHOOK_SECRET env) = Some s /\
          truthy (x_vercel_signature req) = Some h /\ raw_body req = Some b /\
          List.length (buffer_from h)
          <> List.length (buffer_from (expected_signature rev env s b)))).
  { intros rev.
    destruct (handler_cases rev env req) as [[_ H] | (s & h & b & o & _ & _ & _ & _ & _ & Ho & Hrun)];
      [exact H|].
    left. rewrite Hrun. exact (process_verified_responses rev env b o Ho). }
  split; [|split; [|split]].
  - destruct (Hrev Rev2) as [H | [H _]]; [exact H | discriminate].
  - destruct (Hrev Rev3) as [H | [H _]]; [exact H | discriminate].
  - destruct (part000_cases env req)
      as [[_ ->] | [(_ & _ & ->) | (b & _ & _ & [[_ ->] | [_ [[_ ->] | (c & sent & _ & _ & ->)]]])]];
      [| | | | destruct sent]; in_list.
  - destruct (Hrev Rev1) as [H | (_ & H)]; [left; exact H | right; exact H].
Qed.

Lemma filter_not_console_map (lv : console_level) (l : list (list console_arg)) (r : list event) :
  filter not_console (app (map (EvConsole lv) l) r) = filter not_console r.
Proof. induction l as [|x l IH]; [reflexivity|]. exact IH. Qed.

(** The revision at lines 274-379 only changes the revision at lines
    28-103 where the latter rejects, and in what it writes to the console:
    whenever that one answers, both give the same response, and their
    effects other than console output are the same, in the same order. *)
Theorem rev3_refines_rev1 (env : Env) (req : Request) :
  (forall e, fst (serve (handler Rev1 env req)) <> Unhandled e) ->
  fst (serve (handler Rev3 env req)) = fst (serve (handler Rev1 env req))
  /\ filter not_console (snd (serve (handler Rev3 env req)))
     = filter not_console (snd (serve (handler Rev1 env req))).
Proof.
  rewrite !handler_eq. cbv zeta. cbn [headers_events app].
  destruct (negb _); [intros _; split; reflexivity|].
  destruct (truthy (VERCEL_WEBHOOK_SECRET env)) as [s|]; [|intros _; split; reflexivity].
  destruct (truthy (x_vercel_signature req)) as [h|]; [|intros _; split; reflexivity].
  destruct (raw_body req) as [b|]; [|intros _; split; reflexivity].
  rewrite !verify_signature_eq, process_verified_rev13. cbv zeta.
  change (expected_signature Rev3 env s b) with (expected_signature Rev1 env s b).
  destruct (Nat.eqb _ _); [|intros H; exfalso; apply (H range_error); reflexivity].
  intros _.
  destruct (bytes_eqb _ _); [destruct (process_verified Rev1 env b) as [[o|e] pt]|];
    cbn [serve fst snd filter app]; rewrite ?filter_not_console_map;
    (split; [reflexivity|]); cbn [filter not_console is_console negb verdict_events app];
    rewrite ?filter_not_console_map; reflexivity.
Qed.

Lemma rev3_refines_rev1_witness :
  fst (serve (handler Rev3 env_demo (post_request (expected_signature Rev1 env_demo "s3cret" body_c8) body_c8)))
  = fst (serve (handler Rev1 env_demo (post_request (expected_signature Rev1 env_demo "s3cret" body_c8) body_c8)))
  /\ filter not_console
       (snd (serve (handler Rev3 env_demo (post_request (expected_signature Rev1 env_demo "s3cret" body_c8) body_c8))))
     = filter not_console
       (snd (serve (handler Rev1 env_demo (post_request (expected_signature Rev1 env_demo "s3cret" body_c8) body_c8)))).
Proof.
  apply rev3_refines_rev1. intros e H. vm_compute in H. discriminate H.
Defined.

(** The revision at lines 274-379 given the header ["sha1=" ++ h] answers
    as the revision at lines 135-243 given the header [h]. *)
Theorem rev3_prefixed_matches_rev2 (env : Env) (req : Request) (h : string) :
  x_vercel_signature req = Some h -> h <> "" ->
  fst (serve (handler Rev3 env (with_signature req ("sha1=" ++ h))))
  = fst (serve (handler Rev2 env req)).
Proof.
  intros Hh Hne. rewrite !handler_eq. cbv zeta. unfold with_signature.
  cbn [method x_vercel_signature raw_body].
  rewrite Hh, (truthy_nonempty h Hne), (truthy_nonempty ("sha1=" ++ h)) by discriminate.
  destruct (negb _); [reflexivity|].
  destruct (truthy (VERCEL_WEBHOOK_SECRET env)) as [s|]; [|reflexivity].
  destruct (raw_body req) as [b|]; [|reflexivity].
  pose proof (verify_rev3_prefixed env s h b) as Hv.
  pose proof (process_verified_fst Rev3 Rev2 env b) as Hp.
  destruct (verify_signature Rev3 env s ("sha1=" ++ h) b) as [r3 t3].
  destruct (verify_signature Rev2 env s h b) as [r2 t2].
  simpl in Hv. subst r3.
  destruct r2 as [[o|]|e]; simpl; try reflexivity.
  destruct (process_verified Rev3 env b) as [a3 p3].
  destruct (process_verified Rev2 env b) as [a2 p2].
  simpl in Hp. subst a3. destruct a2; reflexivity.
Qed.

Lemma rev3_prefixed_matches_rev2_witness :
  fst (serve (handler Rev3 env_demo
     (with_signature (post_request (hmac_demo "s3cret" body_c8) body_c8)
                     ("sha1=" ++ hmac_demo "s3cret" body_c8))))
  = fst (serve (handler Rev2 env_demo (post_request (hmac_demo "s3cret" body_c8) body_c8))).
Proof.
  apply rev3_prefixed_matches_rev2; [reflexivity |].
  intros H. vm_compute in H. discriminate H.
Defined.

(** A success response means the message was delivered: when a handler
    revision answers 200 "Notification sent to Telegram.", the bot token and
    the chat id are configured, the body parsed to an event, and the run
    issued the request carrying that event's formatted text to the
    sendMessage endpoint of that token, which answered with a 2xx status and
    a body whose [ok] is true. *)
Theorem handler_success_means_delivered (rev : revision) (env : Env) (req : Request) :
  fst (serve (handler rev env req)) = Respond 200 None "Notification sent to Telegram." ->
  exists token chat b w status statusText resp,
    truthy (TELEGRAM_BOT_TOKEN env) = Some token /\
    truthy (TELEGRAM_TARGET_CHAT_ID env) = Some chat /\
    raw_body req = Some b /\ json_parse env b = Some w /\
    let r := telegram_request token chat
               (fst (formatVercelMessageForTelegram (to_locale_string env) w)) (Some MarkdownV2) in
    In (EvFetch r) (snd (serve (handler rev env req))) /\
    remote env r = HttpResponse status statusText (inl resp) /\
    200 <= status <= 299 /\ ok resp = true.
Proof.
  rewrite handler_eq. cbv zeta.
  destruct (negb _); [intros H; discriminate H|].
  destruct (truthy (VERCEL_WEBHOOK_SECRET env)) as [s|]; [|intros H; discriminate H].
  destruct (truthy (x_vercel_signature req)) as [h|]; [|intros H; discriminate H].
  destruct (raw_body req) as [b|] eqn:Hb; [|intros H; discriminate H].
  pose proof (verify_outcomes rev env s h b) as Ho.
  destruct (verify_signature rev env s h b) as [r vt]. simpl in Ho.
  destruct r as [[o|]|ex]; [destruct Ho as [-> | ->]; intros H; discriminate H | |
                            intros H; discriminate H].
  destruct (process_verified_cases rev env b)
    as [[_ Hp] | (w & Hw & [[_ Hp] | (c & sent & Hc & Hsent & Hp)])];
    rewrite Hp; [intros H; discriminate H | intros H; discriminate H |].
  destruct sent; [intros _ | intros H; discriminate H].
  destruct (sendTelegramMessage_true _ _ _ _ _ Hsent)
    as (token & status & st & resp & Ht & Hin & Hf & Hs & Hok).
  exists token, c, b, w, status, st, resp.
  split; [exact Ht | split; [exact Hc | split; [reflexivity | split; [exact Hw|]]]].
  cbv zeta. split; [|auto].
  cbn [serve snd]. apply in_or_app. right. right. apply in_or_app. right.
  right. right. apply in_or_app. right. exact Hin.
Qed.

Lemma handler_success_means_delivered_witness :
  exists token chat b w status statusText resp,
    truthy (TELEGRAM_BOT_TOKEN env_demo) = Some token /\
    truthy (TELEGRAM_TARGET_CHAT_ID env_demo) = Some chat /\
    raw_body (post_request (hmac_demo "s3cret" body_c8) body_c8) = Some b /\
    json_parse env_demo b = Some w /\
    let r := telegram_request token chat
               (fst (formatVercelMessageForTelegram (to_locale_string env_demo) w))
               (Some MarkdownV2) in
    In (EvFetch r)
       (snd (serve (handler Rev2 env_demo (post_request (hmac_demo "s3cret" body_c8) body_c8)))) /\
    remote env_demo r = HttpResponse status statusText (inl resp) /\
    200 <= status <= 299 /\ ok resp = true.
Proof.
  apply handler_success_means_delivered. vm_compute. reflexivity.
Defined.

(** What a handler revision dispatches: the configured chat id, the
    MarkdownV2 mode, and the formatted text of the event parsed from the
    request's body. *)
Theorem handler_dispatches_formatted_event (rev : revision) (env : Env) (req : Request)
    (c m : string) (p : option parse_mode) :
  In (EvSendTelegramMessage c m p) (snd (serve (handler rev env req))) ->
  truthy (TELEGRAM_TARGET_CHAT_ID env) = Some c /\ p = Some MarkdownV2 /\
  exists b w, raw_body req = Some b /\ json_parse env b = Some w /\
    m = fst (formatVercelMessageForTelegram (to_locale_string env) w).
Proof.
  intros Hin.
  destruct (handler_outbound_events rev env req _ Hin eq_refl)
    as (b & w & c' & Hb & Hw & Hc & Hs).
  destruct (sendTelegramMessage_events _ _ _ _ _ _ Hs) as [H | [(tok & _ & H) | H]];
    [|discriminate H | discriminate H].
  injection H as -> -> ->.
  split; [exact Hc | split; [reflexivity | exists b, w; auto]].
Qed.

Lemma handler_dispatches_formatted_event_witness :
  truthy (TELEGRAM_TARGET_CHAT_ID env_demo) = Some "42" /\ Some MarkdownV2 = Some MarkdownV2 /\
  exists b w, raw_body (post_request (hmac_demo "s3cret" body_c8) body_c8) = Some b /\
    json_parse env_demo b = Some w /\
    fst (formatVercelMessageForTelegram (to_locale_string env_demo) ev_c8)
    = fst (formatVercelMessageForTelegram (to_locale_string env_demo) w).
Proof.
  apply (handler_dispatches_formatted_event Rev2 env_demo
           (post_request (hmac_demo "s3cret" body_c8) body_c8) "42"
           (fst (formatVercelMessageForTelegram (to_locale_string env_demo) ev_c8))
           (Some MarkdownV2)).
  vm_compute. repeat (first [left; reflexivity | right]).
Defined.

Lemma handler_filter_le1 (f : event -> bool) :
  (forall e, f e = true -> is_outbound e = true) ->
  (forall c m p r, (List.length (filter f [EvSendTelegramMessage c m p; EvFetch r]) <= 1)%nat) ->
  (forall c m p, (List.length (filter f [EvSendTelegramMessage c m p]) <= 1)%nat) ->
  forall rev env req,
  (List.length (filter f (snd (serve (handler rev env req)))) <= 1)%nat
  /\ (List.length (filter f (snd (serve (handler_part000 env req)))) <= 1)%nat.
Proof.
  intros Hf H2 H1 rev env req.
  assert (Hq : forall e, is_outbound e = false -> f e = false).
  { intros e He. destruct (f e) eqn:E; [|reflexivity]. apply Hf in E. congruence. }
  assert (Hnone : forall l, (forall e, In e l -> is_outbound e = false) -> filter f l = []).
  { intros l Hl. apply filter_none. intros x Hx. apply Hq, Hl, Hx. }
  split.
  - destruct (handler_cases rev env req)
      as [[Hno _] | (s & h & b & o & _ & _ & _ & _ & _ & _ & Hrun)].
    + rewrite Hnone; [simpl; lia|]. intros e He. specialize (Hno e He).
      apply orb_false_iff in Hno. apply Hno.
    + rewrite Hrun. cbn [snd].
      apply filter_le1_app.
      { intros x Hx. apply Hq. apply headers_events_console in Hx. destruct x; easy. }
      apply filter_le1_cons; [apply Hq; reflexivity|].
      apply filter_le1_app.
      { intros x Hx. apply Hq. apply verify_signature_quiet in Hx. destruct x; easy. }
      destruct (process_verified_cases rev env b)
        as [[_ Hp] | (w & Hw & [[_ Hp] | (c & sent & Hc & Hsent & Hp)])]; rewrite Hp; cbn [snd].
      * rewrite Hnone; [simpl; lia|]. intros e He. simpl in He. split_in He; subst;
          solve [reflexivity | contradiction].
      * rewrite Hnone; [simpl; lia|]. intros e He. simpl in He. split_in He; subst;
          solve [reflexivity | contradiction].
      * apply filter_le1_cons; [apply Hq; reflexivity|].
        apply filter_le1_cons; [apply Hq; reflexivity|].
        apply filter_le1_app.
        { intros x Hx. apply Hq. apply in_console_map in Hx. destruct x; easy. }
        apply sendTelegramMessage_filter_le1; assumption.
  - assert (Hfw : forall b x, In x (framework_events req b) -> f x = false).
    { intros b x Hx. apply Hq. destruct (framework_events_in _ _ _ Hx) as [-> | ->]; reflexivity. }
    destruct (part000_cases env req)
      as [[_ ->] | [(_ & _ & ->) | (b & _ & _ & [[_ ->] | [_ [[_ ->] | (c & sent & _ & _ & ->)]]])]];
      cbn [snd].
    + simpl. lia.
    + rewrite Hnone; [simpl; lia|]. intros e He. simpl in He. split_in He; subst;
        solve [reflexivity | contradiction].
    + apply filter_le1_app; [apply Hfw|].
      rewrite Hnone; [simpl; lia|]. intros e [<-|[]]. reflexivity.
    + rewrite (filter_none f _ (Hfw b)). simpl. lia.
    + apply filter_le1_app; [apply Hfw|].
      apply sendTelegramMessage_filter_le1; assumption.
Qed.

(** The handler of part_000 sends a fixed placeholder text, whatever the
    event: its dispatch goes to the configured chat id, in MarkdownV2, with
    the text "Your formatted message from Vercel payload", and happens only
    after the host has read the body and, for a non-empty
    [application/json] body, parsed it. *)
Theorem part000_dispatches_placeholder (env : Env) (req : Request)
    (c m : string) (p : option parse_mode) :
  In (EvSendTelegramMessage c m p) (snd (serve (handler_part000 env req))) ->
  truthy (TELEGRAM_TARGET_CHAT_ID env) = Some c /\ p = Some MarkdownV2 /\
  m = "Your formatted message from Vercel payload" /\
  exists b, raw_body req = Some b /\
    (is_json_type (content_type req) = true -> b <> [] -> exists w, json_parse env b = Some w).
Proof.
  intros Hin.
  destruct (part000_outbound_events env req _ Hin eq_refl)
    as (b & c' & sent & Hb & Hok & Hc & _ & Hs & _).
  destruct (sendTelegramMessage_events _ _ _ _ _ _ Hs) as [H | [(tok & _ & H) | H]];
    [|discriminate H | discriminate H].
  injection H as -> -> ->.
  split; [exact Hc | split; [reflexivity | split; [reflexivity|]]].
  exists b. split; [exact Hb|]. exact (framework_ok_true env req b Hok).
Qed.

Lemma part000_dispatches_placeholder_witness :
  truthy (TELEGRAM_TARGET_CHAT_ID env_demo) = Some "42" /\ Some MarkdownV2 = Some MarkdownV2 /\
  "Your formatted message from Vercel payload" = "Your formatted message from Vercel payload" /\
  exists b, raw_body (post_request "" body_c8) = Some b /\
    (is_json_type (content_type (post_request "" body_c8)) = true -> b <> [] ->
     exists w, json_parse env_demo b = Some w).
Proof.
  apply (part000_dispatches_placeholder env_demo (post_request "" body_c8) "42"
           "Your formatted message from Vercel payload" (Some MarkdownV2)).
  vm_compute. repeat (first [left; reflexivity | right]).
Defined.

(** No retry and no duplicate: a run of any handler calls the dispatcher
    at most once and issues at most one request. *)
Theorem handler_at_most_one_message (rev : revision) (env : Env) (req : Request) :
  (List.length (filter is_send (snd (serve (handler rev env req)))) <= 1)%nat
  /\ (List.length (filter is_fetch (snd (serve (handler rev env req)))) <= 1)%nat
  /\ (List.length (filter is_send (snd (serve (handler_part000 env req)))) <= 1)%nat
  /\ (List.length (filter is_fetch (snd (serve (handler_part000 env req)))) <= 1)%nat.
Proof.
  assert (Hs : forall e, is_send e = true -> is_outbound e = true) by (intros []; easy).
  assert (Hf : forall e, is_fetch e = true -> is_outbound e = true) by (intros []; easy).
  destruct (handler_filter_le1 is_send Hs ltac:(intros; simpl; lia) ltac:(intros; simpl; lia)
              rev env req) as [H1 H2].
  destruct (handler_filter_le1 is_fetch Hf ltac:(intros; simpl; lia) ltac:(intros; simpl; lia)
              rev env req) as [H3 H4].
  auto.
Qed.

(** With [TELEGRAM_TARGET_CHAT_ID] unset or empty, no handler calls the
    dispatcher or issues a request. *)
Theorem no_chat_id_no_dispatch (env : Env) :
  truthy (TELEGRAM_TARGET_CHAT_ID env) = None ->
  (forall rev req e, In e (snd (serve (handler rev env req))) -> is_outbound e = false)
  /\ (forall req e, In e (snd (serve (handler_part000 env req))) -> is_outbound e = false).
Proof.
  intros Hc. split.
  - intros rev req e Hin. destruct (is_outbound e) eqn:He; [|reflexivity].
    destruct (handler_outbound_events rev env req e Hin He) as (b & w & c & _ & _ & Hc' & _).
    congruence.
  - intros req e Hin. destruct (is_outbound e) eqn:He; [|reflexivity].
    destruct (part000_outbound_events env req e Hin He) as (b & c & sent & _ & _ & Hc' & _).
    congruence.
Qed.

Lemma no_chat_id_no_dispatch_witness :
  (forall rev req e, In e (snd (serve (handler rev env_no_chat req))) -> is_outbound e = false)
  /\ (forall req e, In e (snd (serve (handler_part000 env_no_chat req))) -> is_outbound e = false).
Proof. apply no_chat_id_no_dispatch. reflexivity. Defined.

(** A body that is not valid JSON is never dispatched: no handler
    revision calls the dispatcher for it.  The handler of part_000 answers
    a POST of it, sent as a non-empty [application/json] body, with 500
    "Internal Server Error"; before that it has read the body, had the host
    parse it, and logged the host's error with [console.error], and it has
    done nothing else. *)
Theorem invalid_json_never_dispatched (env : Env) (req : Request) (b : bytes) :
  raw_body req = Some b -> json_parse env b = None ->
  (forall rev e, In e (snd (serve (handler rev env req))) -> is_outbound e = false)
  /\ (method req = "POST" -> is_json_type (content_type req) = true -> b <> [] ->
      serve (handler_part000 env req)
      = (Respond 500 None "Internal Server Error",
         [EvReadBody; EvFrameworkJsonParse b;
          EvConsole LevelError [CStr "Error processing Vercel webhook:"; CError "Invalid JSON"]])).
Proof.
  intros Hb Hj. split.
  - intros rev e Hin. destruct (is_outbound e) eqn:He; [|reflexivity].
    destruct (handler_outbound_events rev env req e Hin He) as (b' & w & c & Hb' & Hw & _).
    rewrite Hb in Hb'. injection Hb' as <-. congruence.
  - intros Hm Hct Hne.
    unfold handler_part000. rewrite Hm. cbn [String.eqb negb].
    rewrite framework_body_eq, Hb.
    unfold framework_ok, framework_events. rewrite Hct.
    destruct b as [|x l]; [contradiction|]. rewrite Hj. reflexivity.
Qed.

Lemma invalid_json_never_dispatched_witness :
  (forall rev e, In e (snd (serve (handler rev env_demo (post_request "" (buffer_from "{"))))) ->
                 is_outbound e = false)
  /\ (method (post_request "" (buffer_from "{")) = "POST" ->
      is_json_type (content_type (post_request "" (buffer_from "{"))) = true ->
      buffer_from "{" <> [] ->
      serve (handler_part000 env_demo (post_request "" (buffer_from "{")))
      = (Respond 500 None "Internal Server Error",
         [EvReadBody; EvFrameworkJsonParse (buffer_from "{");
          EvConsole LevelError [CStr "Error processing Vercel webhook:"; CError "Invalid JSON"]])).
Proof. apply invalid_json_never_dispatched; vm_compute; reflexivity. Defined.

(** ** Properties of the formatter *)

Lemma In_push (x y : string) (l : list string) : In x l -> In x (push l y).
Proof. intros H. unfold push. apply in_or_app. left. exact H. Qed.

Lemma In_push_last (y : string) (l : list string) : In y (push l y).
Proof. unfold push. apply in_or_app. right. left. reflexivity. Qed.

Lemma length_push (y : string) (l : list string) :
  List.length (push l y) = S (List.length l).
Proof. unfold push. rewrite length_app. simpl. lia. Qed.

(** Every message states the time of the event: whatever its type and
    payload, the text contains the line [*Time:* `<createdAt as rendered
    by the host, escaped>`]. *)
Theorem format_always_has_time (loc : Z -> string) (ev : VercelWebhook) :
  contains ("*Time:* " ++ code_span (escapeMarkdown (JSString (loc (createdAt ev)))))
           (fst (formatVercelMessageForTelegram loc ev)).
Proof.
  unfold formatVercelMessageForTelegram.
  destruct (format_message_lines loc ev) as [lines logs] eqn:Hf. simpl.
  apply (contains_concat _ _ ("*Time:* " ++ code_span (escapeMarkdown (JSString (loc (createdAt ev)))))).
  - replace lines with (fst (format_message_lines loc ev)) by (rewrite Hf; reflexivity).
    clear Hf. unfold format_message_lines, addCommonDetails. cbv zeta.
    repeat match goal with |- context [if ?b then _ else _] => destruct b end;
    destruct_matches; simpl fst;
    repeat (first [apply In_push_last | apply In_push]).
  - exists "", "". simpl. rewrite append_empty_r. reflexivity.
Qed.

(** Every message has between three and eight lines.  The longest is a
    [deployment.succeeded] message with every field present: the title,
    project, URL, details and time lines of [addCommonDetails], then the
    target, domains and branch lines, eight in all. *)
Theorem format_line_count (loc : Z -> string) (ev : VercelWebhook) :
  (3 <= List.length (fst (format_message_lines loc ev)) <= 8)%nat.
Proof.
  unfold format_message_lines, addCommonDetails. cbv zeta.
  repeat match goal with |- context [if ?b then _ else _] => destruct b end;
  destruct_matches; simpl fst; rewrite ?length_push; simpl; lia.
Qed.

(** The PRODUCTION marker line appears in a message exactly when the event
    is a [deployment.succeeded] whose deployment targets production; it
    never appears for another type, a staging target or an absent
    deployment. *)
Theorem format_production_marker (loc : Z -> string) (ev : VercelWebhook) :
  In "🎯 *Target:* `PRODUCTION`" (fst (format_message_lines loc ev))
  <-> w_type ev = "deployment.succeeded"
      /\ bind_opt (deployment (payload ev)) d_target = Some Production.
Proof.
  unfold format_message_lines, addCommonDetails. cbv zeta. split.
  - repeat match goal with |- context [if String.eqb ?a ?b then _ else _] =>
             destruct (String.eqb_spec a b) end;
    destruct_matches; simpl fst; unfold push; simpl; intros H; split_in H;
    try discriminate H; try contradiction; auto.
  - intros [Et Ht]. rewrite Ht.
    repeat match goal with |- context [if String.eqb ?a ?b then _ else _] =>
             destruct (String.eqb_spec a b) end;
    try congruence.
    simpl fst. destruct_matches; repeat (first [apply In_push_last | apply In_push]).
Qed.
